(** * A shallow embedding of the Streamlit chatbot [app.py]

    The program is a single script: [load_chatbot] obtains a tokenizer and a
    causal language model, [generate_response] turns one user message into
    one reply and a new token history, and [main] is the page script that
    Streamlit re-executes on every interaction, keeping the conversation in
    [st.session_state].

    The tokenizer, the model and Streamlit itself are collaborators of the
    program and not part of it.  They are taken as data: a [Tokenizer] and a
    [Model] are records of the operations the script calls on them, each of
    which may raise; the widgets of a run are a record of what the browser
    reports.  Everything the script itself does (the try/except blocks, the
    concatenation of token histories, the slicing of the generated span, the
    session keys it reads and writes, the reruns it asks for) is written out
    below in the order of the source. *)

From Stdlib Require Import String Ascii List ZArith QArith Bool Lia.
Import ListNotations.

Local Open Scope string_scope.
Local Open Scope list_scope.

(** ** Python values and exceptions *)

(** An instance of (a subclass of) [Exception]; [str e] is its message.
    Interrupts and interpreter exits are not values of this type: they are
    not raised by the calls the script makes. *)
Inductive exception : Type :=
| Exception (msg : string).

Definition str (e : exception) : string :=
  match e with Exception msg => msg end.

(** A call that either returns or raises. *)
Definition result (A : Type) : Type := (exception + A)%type.

Module Result.
Definition ret {A} (a : A) : result A := inr a.
Definition raise {A} (e : exception) : result A := inl e.
Definition bind {A B} (c : result A) (k : A -> result B) : result B :=
  match c with
  | inl e => inl e
  | inr a => k a
  end.
(** [try: body except Exception as e: handler e] *)
Definition try_except {A} (body : result A) (handler : exception -> result A)
  : result A :=
  match body with
  | inl e => handler e
  | inr a => inr a
  end.
End Result.

Declare Scope result_scope.
Delimit Scope result_scope with result.
Notation "x <- c ;; k" := (Result.bind c (fun x => k))
  (at level 61, c at next level, right associativity) : result_scope.

(** A Python truth test on a string: the empty string is false. *)
Definition truthy (s : string) : bool :=
  match s with
  | EmptyString => false
  | String _ _ => true
  end.

Definition dquote : string := String (ascii_of_nat 34) EmptyString.

(** [a + b] where [b] may be [None]: Python raises a [TypeError]. *)
Definition str_add (a : string) (b : option string) : result string :=
  match b with
  | Some b => Result.ret (a ++ b)%string
  | None =>
      Result.raise
        (Exception ("can only concatenate str (not " ++ dquote ++ "NoneType"
                    ++ dquote ++ ") to str")%string)
  end.

(** ** Tensors, tokenizer and model *)

(** A tensor of token ids of shape [(1, n)]: the single row.  [torch.cat]
    along the last dimension is [++]; [t[:, k:][0]] is [skipn k t];
    [t.shape[-1]] is [length t]. *)
Definition tensor : Type := list Z.

Record Tokenizer : Type := {
  eos_token : option string;
  pad_token : option string;
  convert_tokens_to_ids : string -> Z;
  all_special_ids : list Z;
  (** [encode(text, return_tensors='pt')] *)
  encode : string -> result tensor;
  (** [decode(ids, skip_special_tokens=flag)] *)
  decode : tensor -> bool -> result string
}.

Definition eos_token_id (t : Tokenizer) : option Z :=
  option_map (convert_tokens_to_ids t) (eos_token t).

Definition pad_token_id (t : Tokenizer) : option Z :=
  option_map (convert_tokens_to_ids t) (pad_token t).

(** [tokenizer.pad_token = v] *)
Definition set_pad_token (t : Tokenizer) (v : option string) : Tokenizer :=
  {| eos_token := eos_token t;
     pad_token := v;
     convert_tokens_to_ids := convert_tokens_to_ids t;
     all_special_ids := all_special_ids t;
     encode := encode t;
     decode := decode t |}.

(** The keyword arguments of [model.generate] that the script passes. *)
Record generate_kwargs : Type := {
  kw_max_length : Z;
  kw_num_beams : Z;
  kw_no_repeat_ngram_size : Z;
  kw_temperature : Q;
  kw_do_sample : bool;
  kw_pad_token_id : option Z;
  kw_eos_token_id : option Z
}.

(** A loaded model: what [model.generate(input_ids, **kwargs)] answers.
    Sampling makes the answer depend on the generator state of the moment;
    a [Model] value stands for the model together with that state, and the
    runs of a session may each see a different one. *)
Record Model : Type := {
  generate : tensor -> generate_kwargs -> result tensor
}.

(** ** [generate_response] (lines 45-72) *)

(** Line 52. *)
Definition bot_input_ids (chat_history : option tensor)
    (new_user_input_ids : tensor) : tensor :=
  match chat_history with
  | Some h => h ++ new_user_input_ids
  | None => new_user_input_ids
  end.

(** Lines 56-65. *)
Definition generation_kwargs (tokenizer : Tokenizer) (max_length : Z)
  : generate_kwargs :=
  {| kw_max_length := max_length;
     kw_num_beams := 3;
     kw_no_repeat_ngram_size := 2;
     kw_temperature := 7 # 10;
     kw_do_sample := true;
     kw_pad_token_id := pad_token_id tokenizer;
     kw_eos_token_id := eos_token_id tokenizer |}.

(** The body of the [try] block, lines 48-70. *)
Definition generate_response_try (tokenizer : Tokenizer) (model : Model)
    (chat_history : option tensor) (user_input : string) (max_length : Z)
  : result (string * option tensor) :=
  (text <- str_add user_input (eos_token tokenizer) ;;
   new_user_input_ids <- encode tokenizer text ;;
   let bot_input_ids := bot_input_ids chat_history new_user_input_ids in
   chat_history_ids <-
     generate model bot_input_ids (generation_kwargs tokenizer max_length) ;;
   response <-
     decode tokenizer (skipn (length bot_input_ids) chat_history_ids) true ;;
   Result.ret (response, Some chat_history_ids))%result.

(** Line 72. *)
Definition apology (e : exception) : string :=
  ("Sorry, I encountered an error: " ++ str e)%string.

Definition generate_response (tokenizer : Tokenizer) (model : Model)
    (chat_history : option tensor) (user_input : string) (max_length : Z)
  : result (string * option tensor) :=
  Result.try_except
    (generate_response_try tokenizer model chat_history user_input max_length)
    (fun e => Result.ret (apology e, None)).

(** Lines 74-83; a Python dict keeps insertion order. *)
Definition get_sample_conversations : list (string * string) :=
  [ ("General Chat", "Hello! How are you doing today?");
    ("Technology",
     "What do you think about the future of artificial intelligence?");
    ("Science", "Can you explain quantum computing in simple terms?");
    ("Philosophy", "What do you think is the meaning of life?");
    ("Creative Writing",
     "Can you help me write a short story about space exploration?");
    ("Problem Solving",
     "I'm facing a difficult decision at work. Can you help me think through it?")
  ].

(** ** Streamlit: session state, widgets, page elements and script runs *)

Module st.

(** The keys of [st.session_state] that the script uses.  A field is
    [None] while the key is absent ([hasattr] is false); the value stored
    under [model_chat_history] is itself [None] or a tensor. *)
Record session_state : Type := {
  chat_history : option (list (string * string));
  model_chat_history : option (option tensor);
  conversation_count : option Z;
  user_input : option string;
  selected_starter : option string
}.

(** A browser session starts with no key. *)
Definition fresh : session_state :=
  {| chat_history := None;
     model_chat_history := None;
     conversation_count := None;
     user_input := None;
     selected_starter := None |}.

(** What the browser reports for a run: the slider position, which
    buttons were pressed (by label, or by key where one is given), and the
    new content of the text box when the user has edited it. *)
Record widgets : Type := {
  slider : Z;
  button : string -> bool;
  typed : option string
}.

(** The elements a run puts on the page.  Titles, headers, dividers
    outside the conversation and the static "About" and footer texts carry
    no state and are left out.  [ElException] is the box in which Streamlit
    shows an exception that the script did not catch. *)
Inductive element : Type :=
| ElMarkdown (body : string)
| ElInfo (body : string)
| ElError (body : string)
| ElMetric (label : string) (value : Z)
| ElException (message : string).

(** How a piece of script ends: normally, by an exception, or by
    [st.rerun()], whose signal is no [Exception] and passes through every
    [except Exception]. *)
Inductive control (A : Type) : Type :=
| Normal (a : A)
| Raised (e : exception)
| RerunRequested.
Arguments Normal {A} a.
Arguments Raised {A} e.
Arguments RerunRequested {A}.

(** A piece of script: it reads and writes the session state and appends
    elements to the page. *)
Definition Script (A : Type) : Type :=
  session_state -> list element -> control A * session_state * list element.

Definition ret {A} (a : A) : Script A :=
  fun s page => (Normal a, s, page).

Definition bind {A B} (c : Script A) (k : A -> Script B) : Script B :=
  fun s page =>
    match c s page with
    | (Normal a, s', page') => k a s' page'
    | (Raised e, s', page') => (Raised e, s', page')
    | (RerunRequested, s', page') => (RerunRequested, s', page')
    end.

Definition raise {A} (e : exception) : Script A :=
  fun s page => (Raised e, s, page).

Definition rerun : Script unit :=
  fun s page => (RerunRequested, s, page).

(** A call that touches neither the session nor the page. *)
Definition lift {A} (c : result A) : Script A :=
  match c with
  | inl e => raise e
  | inr a => ret a
  end.

(** [try: body except Exception as e: handler e] *)
Definition try_except {A} (body : Script A) (handler : exception -> Script A)
  : Script A :=
  fun s page =>
    match body s page with
    | (Raised e, s', page') => handler e s' page'
    | r => r
    end.

Definition when (b : bool) (c : Script unit) : Script unit :=
  if b then c else ret tt.

Definition get : Script session_state :=
  fun s page => (Normal s, s, page).

Definition put (s' : session_state) : Script unit :=
  fun _ page => (Normal tt, s', page).

Definition show (e : element) : Script unit :=
  fun s page => (Normal tt, s, page ++ [e]).

Definition markdown (body : string) : Script unit := show (ElMarkdown body).
Definition info (body : string) : Script unit := show (ElInfo body).
Definition error (body : string) : Script unit := show (ElError body).
Definition metric (label : string) (value : Z) : Script unit :=
  show (ElMetric label value).

(** Reading an attribute of [st.session_state] whose key is absent raises
    an [AttributeError]. *)
Definition getattr {A} (name : string) (field : session_state -> option A)
  : Script A :=
  fun s page =>
    match field s with
    | Some v => (Normal v, s, page)
    | None =>
        (Raised (Exception ("st.session_state has no attribute "
                            ++ name)%string), s, page)
    end.

(** Assignments to the keys. *)
Definition with_chat_history (v : list (string * string)) (s : session_state)
  : session_state :=
  {| chat_history := Some v;
     model_chat_history := model_chat_history s;
     conversation_count := conversation_count s;
     user_input := user_input s;
     selected_starter := selected_starter s |}.

Definition with_model_chat_history (v : option tensor) (s : session_state)
  : session_state :=
  {| chat_history := chat_history s;
     model_chat_history := Some v;
     conversation_count := conversation_count s;
     user_input := user_input s;
     selected_starter := selected_starter s |}.

Definition with_conversation_count (v : Z) (s : session_state)
  : session_state :=
  {| chat_history := chat_history s;
     model_chat_history := model_chat_history s;
     conversation_count := Some v;
     user_input := user_input s;
     selected_starter := selected_starter s |}.

Definition with_user_input (v : string) (s : session_state) : session_state :=
  {| chat_history := chat_history s;
     model_chat_history := model_chat_history s;
     conversation_count := conversation_count s;
     user_input := Some v;
     selected_starter := selected_starter s |}.

(** Assignment of [selected_starter] ([Some v]) and [delattr] ([None]). *)
Definition with_selected_starter (v : option string) (s : session_state)
  : session_state :=
  {| chat_history := chat_history s;
     model_chat_history := model_chat_history s;
     conversation_count := conversation_count s;
     user_input := user_input s;
     selected_starter := v |}.

Definition modify (f : session_state -> session_state) : Script unit :=
  fun s page => (Normal tt, f s, page).

Definition set_chat_history (v : list (string * string)) : Script unit :=
  modify (with_chat_history v).
Definition set_model_chat_history (v : option tensor) : Script unit :=
  modify (with_model_chat_history v).
Definition set_conversation_count (v : Z) : Script unit :=
  modify (with_conversation_count v).

(** Streamlit refuses an assignment to the key of a widget that the run
    has already instantiated: it raises a [StreamlitAPIException] and
    assigns nothing. *)
Definition widget_key_error (key : string) : exception :=
  Exception ("`st.session_state." ++ key
             ++ "` cannot be modified after the widget with key `" ++ key
             ++ "` is instantiated.")%string.

(** [st.session_state.user_input = v] after the text box with the key
    [user_input] is instantiated, as it is (line 156) before the only
    assignment of the script (line 167). *)
Definition set_user_input (v : string) : Script unit :=
  raise (widget_key_error "user_input").

Definition set_selected_starter (v : option string) : Script unit :=
  modify (with_selected_starter v).

(** [st.text_input] with [key] set to [user_input]: the content of the box
    is the value under its key; an absent key is created with the default. *)
Definition text_input : Script string :=
  fun s page =>
    match user_input s with
    | Some v => (Normal v, s, page)
    | None => (Normal EmptyString, with_user_input EmptyString s, page)
    end.

End st.

Declare Scope script_scope.
Delimit Scope script_scope with script.
Notation "x <- c ;; k" := (st.bind c (fun x => k))
  (at level 61, c at next level, right associativity) : script_scope.
Notation "c ;; k" := (st.bind c (fun _ => k))
  (at level 61, right associativity) : script_scope.

(** ** [load_chatbot] (lines 28-43) *)

(** What lies outside the process: loading a tokenizer or a model by its
    identifier returns it or raises. *)
Record environment : Type := {
  AutoTokenizer_from_pretrained : string -> result Tokenizer;
  AutoModelForCausalLM_from_pretrained : string -> result Model
}.

(** The body of the [try] block, lines 33-40. *)
Definition load_chatbot_try (env : environment) : result (Tokenizer * Model) :=
  (tokenizer <- AutoTokenizer_from_pretrained env "microsoft/DialoGPT-medium" ;;
   model <- AutoModelForCausalLM_from_pretrained env "microsoft/DialoGPT-medium" ;;
   let tokenizer :=
     match pad_token tokenizer with
     | None => set_pad_token tokenizer (eos_token tokenizer)
     | Some _ => tokenizer
     end in
   Result.ret (tokenizer, model))%result.

(** [st.cache_resource] keeps the first answer for later runs and replays
    the elements shown while computing it; a run is given the environment
    that produced the answer it sees. *)
Definition load_chatbot (env : environment)
  : st.Script (option Tokenizer * option Model) :=
  st.try_except
    (loaded <- st.lift (load_chatbot_try env) ;;
     let '(tokenizer, model) := loaded in
     st.ret (Some tokenizer, Some model))%script
    (fun e =>
       (st.error ("Error loading model: " ++ str e)%string ;;
        st.ret (None, None))%script).

(** ** [main] (lines 85-219) *)

Definition is_some {A} (o : option A) : bool :=
  match o with
  | Some _ => true
  | None => false
  end.

(** Lines 87-92. *)
Definition initialize_session_state : st.Script unit :=
  (s <- st.get ;;
   st.when (negb (is_some (st.chat_history s))) (st.set_chat_history []) ;;
   s <- st.get ;;
   st.when (negb (is_some (st.model_chat_history s)))
     (st.set_model_chat_history None) ;;
   s <- st.get ;;
   st.when (negb (is_some (st.conversation_count s)))
     (st.set_conversation_count 0))%script.

(** Lines 95-131; the value of the slider is the result. *)
Definition sidebar (w : st.widgets) : st.Script Z :=
  (let max_length := st.slider w in
   st.when (st.button w "🔄 Clear Chat History")
     (st.set_chat_history [] ;;
      st.set_model_chat_history None ;;
      st.set_conversation_count 0 ;;
      st.rerun) ;;
   chat_history <- st.getattr "chat_history" st.chat_history ;;
   st.metric "Messages Exchanged" (Z.of_nat (length chat_history)) ;;
   st.ret max_length)%script.

(** Lines 144-151: one line per turn, a divider after each but the last. *)
Fixpoint display_turns (turns : list (string * string)) : st.Script unit :=
  match turns with
  | [] => st.ret tt
  | (role, message) :: rest =>
      ((if String.eqb role "user"
        then st.markdown ("👤 **You:** " ++ message)%string
        else st.markdown ("🤖 **AI:** " ++ message)%string) ;;
       match rest with
       | [] => st.ret tt
       | _ :: _ => st.markdown "---"
       end ;;
       display_turns rest)%script
  end.

(** Lines 136-168; the results are [user_input] and [send_button].  The
    assignment of line 167 comes after the text box of line 156 and is
    refused, so that the rerun of line 168 is not reached. *)
Definition chat_interface (w : st.widgets) : st.Script (string * bool) :=
  (chat_history <- st.getattr "chat_history" st.chat_history ;;
   match chat_history with
   | _ :: _ => display_turns chat_history
   | [] =>
       st.info "👋 Welcome! Start a conversation by typing a message below."
   end ;;
   user_input <- st.text_input ;;
   let send_button := st.button w "💬 Send Message" in
   st.when (st.button w "🗑️ Clear Input")
     (st.set_user_input "" ;; st.rerun) ;;
   st.ret (user_input, send_button))%script.

(** Lines 177-180. *)
Fixpoint starter_buttons (w : st.widgets) (items : list (string * string))
  : st.Script unit :=
  match items with
  | [] => st.ret tt
  | (topic, starter) :: rest =>
      (st.when (st.button w ("starter_" ++ topic)%string)
         (st.set_selected_starter (Some starter) ;; st.rerun) ;;
       starter_buttons w rest)%script
  end.

(** Lines 170-185; the result is [user_input], replaced by a pending
    starter, whose key is deleted. *)
Definition quick_starters (w : st.widgets) (user_input : string)
  : st.Script string :=
  (let sample_conversations := get_sample_conversations in
   starter_buttons w sample_conversations ;;
   s <- st.get ;;
   match st.selected_starter s with
   | Some starter => st.set_selected_starter None ;; st.ret starter
   | None => st.ret user_input
   end)%script.

(** Lines 188-210.  A tokenizer or model that was returned is true in the
    test of line 193; [(None, None)] is false. *)
Definition process_user_input (env : environment) (max_length : Z)
    (send_button : bool) (user_input : string) : st.Script unit :=
  (s <- st.get ;;
   st.when ((send_button || is_some (st.selected_starter s))
            && truthy user_input)
     (loaded <- load_chatbot env ;;
      match loaded with
      | (Some tokenizer, Some model) =>
          chat_history <- st.getattr "chat_history" st.chat_history ;;
          st.set_chat_history (chat_history ++ [("user", user_input)]) ;;
          model_chat_history <-
            st.getattr "model_chat_history" st.model_chat_history ;;
          generated <-
            st.lift (generate_response tokenizer model model_chat_history
                       user_input max_length) ;;
          let '(ai_response, new_chat_history) := generated in
          chat_history <- st.getattr "chat_history" st.chat_history ;;
          st.set_chat_history (chat_history ++ [("ai", ai_response)]) ;;
          st.set_model_chat_history new_chat_history ;;
          conversation_count <-
            st.getattr "conversation_count" st.conversation_count ;;
          st.set_conversation_count (conversation_count + 1) ;;
          st.rerun
      | _ =>
          st.error
            "Failed to load the chatbot model. Please refresh the page and try again."
      end))%script.

Definition main (env : environment) (w : st.widgets) : st.Script unit :=
  (initialize_session_state ;;
   max_length <- sidebar w ;;
   input <- chat_interface w ;;
   let '(user_input, send_button) := input in
   user_input <- quick_starters w user_input ;;
   process_user_input env max_length send_button user_input)%script.

(** ** Script runs *)

(** Before a run the new content of the text box, if any, is stored under
    the key of the box. *)
Definition deliver (w : st.widgets) (s : st.session_state) : st.session_state :=
  match st.typed w with
  | Some text => st.with_user_input text s
  | None => s
  end.

(** One execution of the script on an empty page. *)
Definition run (env : environment) (w : st.widgets) (s : st.session_state)
  : st.control unit * st.session_state * list st.element :=
  main env w (deliver w s) [].

(** The widgets of a rerun: nothing pressed, nothing edited. *)
Definition idle (w : st.widgets) : st.widgets :=
  {| st.slider := st.slider w;
     st.button := fun _ => false;
     st.typed := None |}.

(** One interaction: the run it triggers and, when that run ends in
    [st.rerun()], the run that follows.  The page is that of the last run;
    an exception that ends a run is shown at the end of its page. *)
Definition interact (env : environment) (w : st.widgets) (s : st.session_state)
  : st.control unit * st.session_state * list st.element :=
  match run env w s with
  | (st.RerunRequested, s', _) => run env (idle w) s'
  | (st.Raised e, s', page) =>
      (st.Raised e, s', page ++ [st.ElException (str e)])
  | r => r
  end.

Definition state_after (env : environment) (w : st.widgets)
    (s : st.session_state) : st.session_state :=
  snd (fst (interact env w s)).

Definition page_after (env : environment) (w : st.widgets)
    (s : st.session_state) : list st.element :=
  snd (interact env w s).

(** ** A small tokenizer, model and environment

    Characters are their own tokens and the end-of-turn marker is one
    special token; the model answers "ok" and has a context window of 32
    tokens.  They serve to run the script on concrete conversations. *)

Module Toy.

Definition eos : string := "<|endoftext|>".
Definition eos_id : Z := 50256.

(** [skip] counts the characters of a marker still to be passed over. *)
Fixpoint encode_from (skip : nat) (text : string) : tensor :=
  match text with
  | EmptyString => []
  | String c rest =>
      match skip with
      | S k => encode_from k rest
      | O =>
          if String.prefix eos text
          then eos_id :: encode_from (String.length eos - 1) rest
          else Z.of_nat (nat_of_ascii c) :: encode_from O rest
      end
  end.

Definition decode_token (skip_special_tokens : bool) (id : Z) : string :=
  if Z.eqb id eos_id
  then (if skip_special_tokens then EmptyString else eos)
  else String (ascii_of_nat (Z.to_nat id)) EmptyString.

Definition tokenizer : Tokenizer :=
  {| eos_token := Some eos;
     pad_token := None;
     convert_tokens_to_ids := fun _ => eos_id;
     all_special_ids := [eos_id];
     encode := fun text => Result.ret (encode_from O text);
     decode := fun ids skip_special_tokens =>
       Result.ret
         (fold_right
            (fun id text => (decode_token skip_special_tokens id ++ text)%string)
            EmptyString ids)
  |}.

Definition n_positions : nat := 32.

Definition model : Model :=
  {| generate := fun input_ids _ =>
       if Nat.leb n_positions (length input_ids)
       then Result.raise (Exception "index out of range in self")
       else Result.ret (input_ids ++ encode_from O "ok" ++ [eos_id]) |}.

(** A model that refuses every call outside the fixed decoding policy. *)
Definition picky : Model :=
  {| generate := fun input_ids kwargs =>
       if (kw_num_beams kwargs =? 3)%Z
          && (kw_no_repeat_ngram_size kwargs =? 2)%Z
          && Qeq_bool (kw_temperature kwargs) (7 # 10)
          && kw_do_sample kwargs
       then generate model input_ids kwargs
       else Result.raise (Exception "unsupported generation arguments") |}.

Definition env : environment :=
  {| AutoTokenizer_from_pretrained := fun _ => Result.ret tokenizer;
     AutoModelForCausalLM_from_pretrained := fun _ => Result.ret model |}.

(** No connection to the model hub. *)
Definition offline : environment :=
  {| AutoTokenizer_from_pretrained := fun _ =>
       Result.raise (Exception "We couldn't connect to 'https://huggingface.co'");
     AutoModelForCausalLM_from_pretrained := fun _ =>
       Result.raise (Exception "We couldn't connect to 'https://huggingface.co'")
  |}.

(** The user types [text] and presses the send button. *)
Definition send (text : string) : st.widgets :=
  {| st.slider := 1000;
     st.button := fun label => String.eqb label "💬 Send Message";
     st.typed := Some text |}.

Definition clear : st.widgets :=
  {| st.slider := 1000;
     st.button := fun label => String.eqb label "🔄 Clear Chat History";
     st.typed := None |}.

Definition pick (topic : string) : st.widgets :=
  {| st.slider := 1000;
     st.button := fun label => String.eqb label ("starter_" ++ topic)%string;
     st.typed := None |}.

End Toy.


(** ** Observations on a session *)

(** The turn list, the token history and the exchange counter of a session;
    a key that is still absent reads as the value line 87-92 give it. *)
Definition turns (s : st.session_state) : list (string * string) :=
  match st.chat_history s with
  | Some h => h
  | None => []
  end.

Definition token_history (s : st.session_state) : option tensor :=
  match st.model_chat_history s with
  | Some h => h
  | None => None
  end.

Definition exchanges (s : st.session_state) : Z :=
  match st.conversation_count s with
  | Some n => n
  | None => 0%Z
  end.

(** The state once the three keys exist. *)
Definition defaults (s : st.session_state) : st.session_state :=
  {| st.chat_history := Some (turns s);
     st.model_chat_history := Some (token_history s);
     st.conversation_count := Some (exchanges s);
     st.user_input := st.user_input s;
     st.selected_starter := st.selected_starter s |}.

Definition cleared (s : st.session_state) : st.session_state :=
  st.with_conversation_count 0
    (st.with_model_chat_history None (st.with_chat_history [] s)).

(** The content of the text box and the state once its key exists. *)
Definition box (s : st.session_state) : string :=
  match st.user_input s with
  | Some v => v
  | None => EmptyString
  end.

Definition boxed (s : st.session_state) : st.session_state :=
  match st.user_input s with
  | Some _ => s
  | None => st.with_user_input EmptyString s
  end.

(** The page elements of a turn list. *)
Fixpoint conversation_view (turns : list (string * string)) : list st.element :=
  match turns with
  | [] => []
  | (role, message) :: rest =>
      st.ElMarkdown
        (if String.eqb role "user"
         then ("👤 **You:** " ++ message)%string
         else ("🤖 **AI:** " ++ message)%string)
      :: match rest with
         | [] => []
         | _ :: _ => [st.ElMarkdown "---"]
         end
      ++ conversation_view rest
  end.

Definition chat_view (turns : list (string * string)) : list st.element :=
  match turns with
  | [] => [st.ElInfo "👋 Welcome! Start a conversation by typing a message below."]
  | _ :: _ => conversation_view turns
  end.

(** The starter of the first starter button that is pressed. *)
Fixpoint pressed_starter (w : st.widgets) (items : list (string * string))
  : option string :=
  match items with
  | [] => None
  | (topic, starter) :: rest =>
      if st.button w ("starter_" ++ topic)%string
      then Some starter
      else pressed_starter w rest
  end.

(** The text that reaches line 188 and the state there. *)
Definition submitted (s : st.session_state) : string :=
  match st.selected_starter s with
  | Some starter => starter
  | None => box s
  end.

Definition consumed (s : st.session_state) : st.session_state :=
  match st.selected_starter s with
  | Some _ => st.with_selected_starter None s
  | None => s
  end.

(** The state after lines 195-205. *)
Definition exchanged (text response : string) (new_history : option tensor)
    (s : st.session_state) : st.session_state :=
  st.with_conversation_count (exchanges s + 1)
    (st.with_model_chat_history new_history
       (st.with_chat_history
          (turns s ++ [("user", text); ("ai", response)]) s)).

(** The outcome of a run, case by case. *)
Definition run_outcome (env : environment) (w : st.widgets)
    (s : st.session_state)
  : st.control unit * st.session_state * list st.element :=
  let s0 := defaults (deliver w s) in
  if st.button w "🔄 Clear Chat History" then (st.RerunRequested, cleared s0, [])
  else
    let page :=
      st.ElMetric "Messages Exchanged" (Z.of_nat (length (turns s0)))
      :: chat_view (turns s0) in
    let s1 := boxed s0 in
    if st.button w "🗑️ Clear Input"
    then (st.Raised (st.widget_key_error "user_input"), s1, page)
    else
      match pressed_starter w get_sample_conversations with
      | Some starter =>
          (st.RerunRequested, st.with_selected_starter (Some starter) s1, page)
      | None =>
          let text := submitted s1 in
          let s2 := consumed s1 in
          if st.button w "💬 Send Message" && truthy text
          then
            match load_chatbot_try env with
            | inl e =>
                (st.Normal tt, s2,
                 page ++
                 [st.ElError ("Error loading model: " ++ str e)%string;
                  st.ElError
                    "Failed to load the chatbot model. Please refresh the page and try again."])
            | inr (tokenizer, model) =>
                match generate_response tokenizer model (token_history s2)
                        text (st.slider w) with
                | inr (response, new_history) =>
                    (st.RerunRequested,
                     exchanged text response new_history s2, page)
                | inl e =>
                    (st.Raised e,
                     st.with_chat_history (turns s2 ++ [("user", text)]) s2,
                     page)
                end
            end
          else (st.Normal tt, s2, page)
      end.

(** The three keys of lines 87-92 exist. *)
Definition initialised (s : st.session_state) : Prop :=
  st.chat_history s = Some (turns s) /\
  st.model_chat_history s = Some (token_history s) /\
  st.conversation_count s = Some (exchanges s).

(** The state an idle run leaves: the keys exist and no starter is pending. *)
Definition settle (s : st.session_state) : st.session_state :=
  consumed (boxed (defaults s)).

(** The state of a session between two interactions. *)
Definition settled (s : st.session_state) : Prop :=
  initialised s /\
  st.user_input s = Some (box s) /\
  st.selected_starter s = None.

(** ** Sends and sessions *)

Definition no_starter_pressed (w : st.widgets) : bool :=
  forallb (fun item => negb (st.button w ("starter_" ++ fst item)%string))
    get_sample_conversations.

(** The send button is the button that was pressed. *)
Definition is_send (w : st.widgets) : bool :=
  st.button w "💬 Send Message"
  && negb (st.button w "🔄 Clear Chat History")
  && negb (st.button w "🗑️ Clear Input")
  && no_starter_pressed w.

(** The text a run submits: the content of the text box once the widgets
    are delivered, or a starter that is still pending. *)
Definition sent_text (w : st.widgets) (s : st.session_state) : string :=
  submitted (deliver w s).

(** The tokenizer, model and text of the send a run performs, if it
    performs one: the send button is pressed, the text is not empty and the
    model is loaded. *)
Definition sends (env : environment) (w : st.widgets) (s : st.session_state)
  : option (Tokenizer * Model * string) :=
  if is_send w && truthy (sent_text w s)
  then
    match load_chatbot_try env with
    | inr (tokenizer, model) => Some (tokenizer, model, sent_text w s)
    | inl _ => None
    end
  else None.

(** The run sends and nothing fails: the model loads and the generation,
    with its encoding and decoding, succeeds. *)
Definition send_succeeds (env : environment) (w : st.widgets)
    (s : st.session_state) : bool :=
  match sends env w s with
  | Some (tokenizer, model, text) =>
      match generate_response_try tokenizer model (token_history s) text
              (st.slider w) with
      | inr _ => true
      | inl _ => false
      end
  | None => false
  end.

(** A session is a sequence of interactions, each with the environment its
    run sees. *)
Fixpoint session_after (steps : list (environment * st.widgets))
    (s : st.session_state) : st.session_state :=
  match steps with
  | [] => s
  | (env, w) :: rest => session_after rest (state_after env w s)
  end.

Fixpoint all_sends_succeed (steps : list (environment * st.widgets))
    (s : st.session_state) : bool :=
  match steps with
  | [] => true
  | (env, w) :: rest =>
      send_succeeds env w s && all_sends_succeed rest (state_after env w s)
  end.

(** A turn list of exchanges: a user entry, then an assistant entry. *)
Fixpoint alternating (l : list (string * string)) : Prop :=
  match l with
  | [] => True
  | (speaker, _) :: rest =>
      match rest with
      | (speaker', _) :: rest' =>
          speaker = "user" /\ speaker' = "ai" /\ alternating rest'
      | [] => False
      end
  end.

(** ** Token histories *)

Definition history_tokens (s : st.session_state) : tensor :=
  match token_history s with
  | Some h => h
  | None => []
  end.

(** The answer of [generate] is its input followed by the new tokens, as a
    decoder-only model answers. *)
Definition extends_input (model : Model) : Prop :=
  forall input kwargs out,
    generate model input kwargs = inr out -> exists reply, out = input ++ reply.

(** No interaction of the sequence resets the token history: the clear
    button is not pressed and no send fails in generation. *)
Fixpoint no_reset (steps : list (environment * st.widgets))
    (s : st.session_state) : bool :=
  match steps with
  | [] => true
  | (env, w) :: rest =>
      negb (st.button w "🔄 Clear Chat History")
      && match sends env w s with
         | Some _ => send_succeeds env w s
         | None => true
         end
      && no_reset rest (state_after env w s)
  end.

(** The encoded user turns of the sends of a sequence, in order. *)
Fixpoint encoded_turns (steps : list (environment * st.widgets))
    (s : st.session_state) : list tensor :=
  match steps with
  | [] => []
  | (env, w) :: rest =>
      match sends env w s with
      | Some (tokenizer, _, text) =>
          match (marked <- str_add text (eos_token tokenizer) ;;
                 encode tokenizer marked)%result with
          | inr ids => [ids]
          | inl _ => []
          end
      | None => []
      end ++ encoded_turns rest (state_after env w s)
  end.

(** ** The contract of [decode] *)

Definition is_special (t : Tokenizer) (id : Z) : bool :=
  existsb (Z.eqb id) (all_special_ids t).

(** With [skip_special_tokens] the special tokens are dropped before the
    text is assembled, and the end-of-turn token is one of them. *)
Definition skips_special_tokens (t : Tokenizer) : Prop :=
  (forall ids,
      decode t ids true
      = decode t (filter (fun id => negb (is_special t id)) ids) true) /\
  (forall id, eos_token_id t = Some id -> is_special t id = true).

(** The keyword arguments of a call under the fixed decoding policy. *)
Definition fixed_policy (max_length : Z) (pad_id eos_id : option Z)
  : generate_kwargs :=
  {| kw_max_length := max_length;
     kw_num_beams := 3;
     kw_no_repeat_ngram_size := 2;
     kw_temperature := 7 # 10;
     kw_do_sample := true;
     kw_pad_token_id := pad_id;
     kw_eos_token_id := eos_id |}.

(** ** A sample session *)

Module Sample.

(** The tokenizer as [load_chatbot] returns it: padding falls back to the
    end-of-turn marker. *)
Definition tokenizer : Tokenizer :=
  set_pad_token Toy.tokenizer (eos_token Toy.tokenizer).

Definition long_text : string := "a much longer message than the window".

Definition greeting : list (environment * st.widgets) :=
  [(Toy.env, Toy.send "hi")].

Definition two_sends : list (environment * st.widgets) :=
  [(Toy.env, Toy.send "hi"); (Toy.env, Toy.send "yo")].

(** The session after one exchange. *)
Definition greeted : st.session_state := session_after greeting st.fresh.

Definition overflow : exception := Exception "index out of range in self".

End Sample.

(** ** Rendering of the conversation *)

(** Lines 145-148: the line of one turn. *)
Definition turn_line (turn : string * string) : st.element :=
  st.ElMarkdown
    (if String.eqb (fst turn) "user"
     then ("👤 **You:** " ++ snd turn)%string
     else ("🤖 **AI:** " ++ snd turn)%string).

Definition divider : st.element := st.ElMarkdown "---".

(** [sep] between consecutive elements, and nowhere else. *)
Fixpoint intersperse {A : Type} (sep : A) (l : list A) : list A :=
  match l with
  | [] => []
  | x :: rest =>
      match rest with
      | [] => [x]
      | _ :: _ => x :: sep :: intersperse sep rest
      end
  end.

(** The two elements a failed load puts on the page. *)
Definition load_errors (e : exception) : list st.element :=
  [st.ElError ("Error loading model: " ++ str e)%string;
   st.ElError
     "Failed to load the chatbot model. Please refresh the page and try again."].

(** No button of the page is pressed. *)
Definition nothing_pressed (w : st.widgets) : bool :=
  negb (st.button w "💬 Send Message")
  && negb (st.button w "🔄 Clear Chat History")
  && negb (st.button w "🗑️ Clear Input")
  && no_starter_pressed w.

(** No interaction of the sequence presses the clear button. *)
Definition never_cleared (steps : list (environment * st.widgets)) : bool :=
  forallb (fun step => negb (st.button (snd step) "🔄 Clear Chat History"))
    steps.

Module Edge.

(** A model that answers with the first two tokens of its input. *)
Definition terse : Model :=
  {| generate := fun input_ids _ => Result.ret (firstn 2 input_ids) |}.

Definition nothing : st.widgets :=
  {| st.slider := 1000;
     st.button := fun _ => false;
     st.typed := None |}.

Definition send_box : st.widgets :=
  {| st.slider := 1000;
     st.button := fun label => String.eqb label "💬 Send Message";
     st.typed := None |}.

Definition clear_input : st.widgets :=
  {| st.slider := 1000;
     st.button := fun label => String.eqb label "🗑️ Clear Input";
     st.typed := None |}.

End Edge.

(** ** The calls [generate_response] makes *)

(** A call to the tokenizer or the model, with its arguments. *)
Inductive call : Type :=
| CallEncode (text : string)
| CallGenerate (input_ids : tensor) (kwargs : generate_kwargs)
| CallDecode (token_ids : tensor) (skip_special_tokens : bool).

(** A computation together with the calls it has made, in order. *)
Definition traced (A : Type) : Type := (list call * result A)%type.

Module Traced.
Definition ret {A} (a : A) : traced A := ([], inr a).
Definition bind {A B} (c : traced A) (k : A -> traced B) : traced B :=
  match c with
  | (calls, inl e) => (calls, inl e)
  | (calls, inr a) => let (calls', r) := k a in (calls ++ calls', r)
  end.
(** A step that calls neither the tokenizer nor the model. *)
Definition silent {A} (c : result A) : traced A := ([], c).
(** The call [what], which answers [answer]. *)
Definition calling {A} (what : call) (answer : result A) : traced A :=
  ([what], answer).
Definition try_except {A} (body : traced A) (handler : exception -> traced A)
  : traced A :=
  match body with
  | (calls, inl e) => let (calls', r) := handler e in (calls ++ calls', r)
  | (calls, inr a) => (calls, inr a)
  end.
End Traced.

Declare Scope traced_scope.
Delimit Scope traced_scope with traced.
Notation "x <- c ;; k" := (Traced.bind c (fun x => k))
  (at level 61, c at next level, right associativity) : traced_scope.

(** [generate_response] (lines 45-72) once more, each call to the
    tokenizer and to the model recorded as it is made. *)
Definition generate_response_calls (tokenizer : Tokenizer) (model : Model)
    (chat_history : option tensor) (user_input : string) (max_length : Z)
  : traced (string * option tensor) :=
  Traced.try_except
    (text <- Traced.silent (str_add user_input (eos_token tokenizer)) ;;
     new_user_input_ids <-
       Traced.calling (CallEncode text) (encode tokenizer text) ;;
     let bot_input_ids := bot_input_ids chat_history new_user_input_ids in
     chat_history_ids <-
       Traced.calling
         (CallGenerate bot_input_ids (generation_kwargs tokenizer max_length))
         (generate model bot_input_ids
            (generation_kwargs tokenizer max_length)) ;;
     response <-
       Traced.calling
         (CallDecode (skipn (length bot_input_ids) chat_history_ids) true)
         (decode tokenizer
            (skipn (length bot_input_ids) chat_history_ids) true) ;;
     Traced.ret (response, Some chat_history_ids))%traced
    (fun e =>
       Traced.ret (("Sorry, I encountered an error: " ++ str e)%string, None)).

(** ** The exchanges of a session, in tokens *)

(** For each send of the sequence, in order: the encoded user turn, and
    the tokens of the answer of [model.generate] beyond its input. *)
Fixpoint generated_exchanges (steps : list (environment * st.widgets))
    (s : st.session_state) : list (tensor * tensor) :=
  match steps with
  | [] => []
  | (env, w) :: rest =>
      match sends env w s with
      | Some (tokenizer, model, text) =>
          match (marked <- str_add text (eos_token tokenizer) ;;
                 encode tokenizer marked)%result with
          | inr new_ids =>
              match generate model (bot_input_ids (token_history s) new_ids)
                      (generation_kwargs tokenizer (st.slider w)) with
              | inr out =>
                  [(new_ids,
                    skipn (length (bot_input_ids (token_history s) new_ids))
                      out)]
              | inl _ => []
              end
          | inl _ => []
          end
      | None => []
      end ++ generated_exchanges rest (state_after env w s)
  end.

(** ** Laws of the script monad *)

Section ScriptLaws.
Context {A B : Type}.
Variables (c : st.Script A) (k : A -> st.Script B).
Variables (s s' : st.session_state) (page page' : list st.element).

Lemma bind_normal (a : A) :
  c s page = (st.Normal a, s', page') ->
  st.bind c k s page = k a s' page'.
Proof. unfold st.bind. intros ->. reflexivity. Qed.

Lemma bind_rerun :
  c s page = (st.RerunRequested, s', page') ->
  st.bind c k s page = (st.RerunRequested, s', page').
Proof. unfold st.bind. intros ->. reflexivity. Qed.

Lemma bind_raised (e : exception) :
  c s page = (st.Raised e, s', page') ->
  st.bind c k s page = (st.Raised e, s', page').
Proof. unfold st.bind. intros ->. reflexivity. Qed.
End ScriptLaws.

(** ** The parts of [main] *)

Lemma initialize_session_state_spec (s : st.session_state) page :
  initialize_session_state s page = (st.Normal tt, defaults s, page).
Proof.
  destruct s as [[h|] [m|] [n|] ui ss]; reflexivity.
Qed.

Lemma sidebar_clear w s page :
  st.button w "🔄 Clear Chat History" = true ->
  sidebar w s page = (st.RerunRequested, cleared s, page).
Proof.
  intros H. unfold sidebar. rewrite H. reflexivity.
Qed.

Lemma sidebar_metric w s page h :
  st.button w "🔄 Clear Chat History" = false ->
  st.chat_history s = Some h ->
  sidebar w s page =
  (st.Normal (st.slider w), s,
   page ++ [st.ElMetric "Messages Exchanged" (Z.of_nat (length h))]).
Proof.
  intros H Hh. unfold sidebar. rewrite H.
  unfold st.when, st.bind, st.ret, st.getattr. rewrite Hh. reflexivity.
Qed.

Lemma display_turns_spec h : forall s page,
  display_turns h s page = (st.Normal tt, s, page ++ conversation_view h).
Proof.
  induction h as [|[role message] rest IH]; intros s page.
  - cbn. now rewrite app_nil_r.
  - cbn [display_turns conversation_view].
    unfold st.bind at 1.
    assert (Hline :
      (if String.eqb role "user"
       then st.markdown ("👤 **You:** " ++ message)%string
       else st.markdown ("🤖 **AI:** " ++ message)%string) s page
      = (st.Normal tt, s,
         page ++ [st.ElMarkdown (if String.eqb role "user"
           then ("👤 **You:** " ++ message)%string
           else ("🤖 **AI:** " ++ message)%string)])).
    { destruct (String.eqb role "user"); reflexivity. }
    rewrite Hline. unfold st.bind at 1.
    destruct rest as [|next rest'].
    + reflexivity.
    + unfold st.markdown at 1, st.show at 1.
      rewrite IH. rewrite <- !app_assoc. reflexivity.
Qed.

Lemma chat_interface_spec w s page h :
  st.chat_history s = Some h ->
  chat_interface w s page =
  if st.button w "🗑️ Clear Input"
  then (st.Raised (st.widget_key_error "user_input"), boxed s,
        page ++ chat_view h)
  else (st.Normal (box s, st.button w "💬 Send Message"), boxed s,
        page ++ chat_view h).
Proof.
  intros Hh. unfold chat_interface.
  erewrite bind_normal by (unfold st.getattr; rewrite Hh; reflexivity).
  assert (Hview :
    match h with
    | [] => st.info "👋 Welcome! Start a conversation by typing a message below."
    | _ :: _ => display_turns h
    end s page = (st.Normal tt, s, page ++ chat_view h)).
  { destruct h; [reflexivity|]. apply display_turns_spec. }
  erewrite bind_normal by exact Hview.
  assert (Hbox : st.text_input s (page ++ chat_view h)
                 = (st.Normal (box s), boxed s, page ++ chat_view h)).
  { unfold st.text_input, box, boxed. destruct (st.user_input s); reflexivity. }
  erewrite bind_normal by exact Hbox.
  destruct (st.button w "🗑️ Clear Input"); reflexivity.
Qed.

Lemma starter_buttons_spec w items : forall s page,
  starter_buttons w items s page =
  match pressed_starter w items with
  | Some starter =>
      (st.RerunRequested, st.with_selected_starter (Some starter) s, page)
  | None => (st.Normal tt, s, page)
  end.
Proof.
  induction items as [|[topic starter] rest IH]; intros s page.
  - reflexivity.
  - cbn [starter_buttons pressed_starter].
    destruct (st.button w ("starter_" ++ topic)%string).
    + reflexivity.
    + cbn. apply IH.
Qed.

Lemma quick_starters_spec w text s page :
  quick_starters w text s page =
  match pressed_starter w get_sample_conversations with
  | Some starter =>
      (st.RerunRequested, st.with_selected_starter (Some starter) s, page)
  | None =>
      (st.Normal (match st.selected_starter s with
                  | Some starter => starter
                  | None => text
                  end), consumed s, page)
  end.
Proof.
  unfold quick_starters, st.bind.
  rewrite starter_buttons_spec.
  destruct (pressed_starter w get_sample_conversations); [reflexivity|].
  unfold consumed. cbn. destruct (st.selected_starter s); reflexivity.
Qed.

Lemma initialised_defaults s : initialised (defaults s).
Proof. repeat split. Qed.

Lemma initialised_boxed s : initialised s -> initialised (boxed s).
Proof. unfold boxed. destruct (st.user_input s); auto. Qed.

Lemma initialised_consumed s : initialised s -> initialised (consumed s).
Proof. unfold consumed. destruct (st.selected_starter s); auto. Qed.

Lemma box_boxed s : box (boxed s) = box s.
Proof. unfold box, boxed. destruct (st.user_input s) eqn:E; cbn; now rewrite ?E. Qed.

Lemma selected_starter_consumed s : st.selected_starter (consumed s) = None.
Proof.
  unfold consumed. destruct (st.selected_starter s) eqn:E; [reflexivity|exact E].
Qed.

Lemma load_chatbot_spec env s page :
  load_chatbot env s page =
  match load_chatbot_try env with
  | inl e =>
      (st.Normal (None, None), s,
       page ++ [st.ElError ("Error loading model: " ++ str e)%string])
  | inr (tokenizer, model) => (st.Normal (Some tokenizer, Some model), s, page)
  end.
Proof.
  unfold load_chatbot, st.try_except, st.bind, st.lift.
  destruct (load_chatbot_try env) as [e|[tokenizer model]]; reflexivity.
Qed.

Lemma process_user_input_spec env max_length send_button text s page :
  initialised s ->
  st.selected_starter s = None ->
  process_user_input env max_length send_button text s page =
  if send_button && truthy text
  then
    match load_chatbot_try env with
    | inl e =>
        (st.Normal tt, s,
         page ++
         [st.ElError ("Error loading model: " ++ str e)%string;
          st.ElError
            "Failed to load the chatbot model. Please refresh the page and try again."])
    | inr (tokenizer, model) =>
        match generate_response tokenizer model (token_history s)
                text max_length with
        | inr (response, new_history) =>
            (st.RerunRequested, exchanged text response new_history s, page)
        | inl e =>
            (st.Raised e,
             st.with_chat_history (turns s ++ [("user", text)]) s, page)
        end
    end
  else (st.Normal tt, s, page).
Proof.
  intros (Hh & Hm & Hn) Hs. unfold process_user_input.
  unfold st.bind at 1, st.get. rewrite Hs. cbn [is_some]. rewrite orb_false_r.
  destruct (send_button && truthy text); [|reflexivity].
  unfold st.when. unfold st.bind at 1. rewrite load_chatbot_spec.
  destruct (load_chatbot_try env) as [e|[tokenizer model]].
  - unfold st.error, st.show. rewrite <- app_assoc. reflexivity.
  - erewrite bind_normal by (unfold st.getattr; rewrite Hh; reflexivity).
    erewrite bind_normal by reflexivity.
    erewrite bind_normal
      by (unfold st.getattr; cbn [st.with_chat_history st.model_chat_history];
          rewrite Hm; reflexivity).
    destruct (generate_response tokenizer model (token_history s) text
                max_length) as [e|[response new_history]] eqn:Hgen.
    + erewrite bind_raised by (unfold st.lift; reflexivity). reflexivity.
    + erewrite bind_normal by (unfold st.lift; reflexivity).
      unfold st.bind, st.getattr, st.set_chat_history, st.set_model_chat_history,
        st.set_conversation_count, st.modify, st.rerun.
      cbn. rewrite Hn. unfold exchanged.
      unfold st.with_conversation_count, st.with_model_chat_history,
        st.with_chat_history. cbn. rewrite <- app_assoc. reflexivity.
Qed.

(** A run does what [run_outcome] says. *)
Lemma run_outcome_correct env w s : run env w s = run_outcome env w s.
Proof.
  unfold run, run_outcome, main.
  set (s0 := deliver w s).
  erewrite bind_normal by apply initialize_session_state_spec.
  destruct (st.button w "🔄 Clear Chat History") eqn:Hclear.
  - erewrite bind_rerun by (apply sidebar_clear; exact Hclear). reflexivity.
  - erewrite bind_normal
      by (apply sidebar_metric; [exact Hclear | reflexivity]).
    unfold st.bind at 1.
    rewrite (chat_interface_spec w (defaults s0) _ (turns (defaults s0)) eq_refl).
    destruct (st.button w "🗑️ Clear Input") eqn:Hinput; [reflexivity|].
    unfold st.bind at 1. rewrite quick_starters_spec.
    destruct (pressed_starter w get_sample_conversations); [reflexivity|].
    rewrite process_user_input_spec.
    + unfold submitted. rewrite box_boxed. reflexivity.
    + apply initialised_consumed, initialised_boxed, initialised_defaults.
    + apply selected_starter_consumed.
Qed.

(** ** Observations under the state transformers *)

Ltac by_cases_on_keys s :=
  destruct s as [[?|] [?|] [?|] [?|] [?|]]; reflexivity.

Lemma turns_defaults s : turns (defaults s) = turns s.
Proof. reflexivity. Qed.
Lemma token_history_defaults s : token_history (defaults s) = token_history s.
Proof. reflexivity. Qed.
Lemma exchanges_defaults s : exchanges (defaults s) = exchanges s.
Proof. reflexivity. Qed.

Lemma turns_boxed s : turns (boxed s) = turns s.
Proof. by_cases_on_keys s. Qed.
Lemma token_history_boxed s : token_history (boxed s) = token_history s.
Proof. by_cases_on_keys s. Qed.
Lemma exchanges_boxed s : exchanges (boxed s) = exchanges s.
Proof. by_cases_on_keys s. Qed.

Lemma turns_consumed s : turns (consumed s) = turns s.
Proof. by_cases_on_keys s. Qed.
Lemma token_history_consumed s : token_history (consumed s) = token_history s.
Proof. by_cases_on_keys s. Qed.
Lemma exchanges_consumed s : exchanges (consumed s) = exchanges s.
Proof. by_cases_on_keys s. Qed.

Lemma turns_deliver w s : turns (deliver w s) = turns s.
Proof. unfold deliver. destruct (st.typed w); reflexivity. Qed.
Lemma token_history_deliver w s :
  token_history (deliver w s) = token_history s.
Proof. unfold deliver. destruct (st.typed w); reflexivity. Qed.
Lemma exchanges_deliver w s : exchanges (deliver w s) = exchanges s.
Proof. unfold deliver. destruct (st.typed w); reflexivity. Qed.

Lemma turns_settle s : turns (settle s) = turns s.
Proof. by_cases_on_keys s. Qed.
Lemma token_history_settle s : token_history (settle s) = token_history s.
Proof. by_cases_on_keys s. Qed.
Lemma exchanges_settle s : exchanges (settle s) = exchanges s.
Proof. by_cases_on_keys s. Qed.

Lemma turns_with_user_input v s : turns (st.with_user_input v s) = turns s.
Proof. reflexivity. Qed.
Lemma token_history_with_user_input v s :
  token_history (st.with_user_input v s) = token_history s.
Proof. reflexivity. Qed.
Lemma exchanges_with_user_input v s :
  exchanges (st.with_user_input v s) = exchanges s.
Proof. reflexivity. Qed.

Lemma turns_with_selected_starter v s :
  turns (st.with_selected_starter v s) = turns s.
Proof. reflexivity. Qed.
Lemma token_history_with_selected_starter v s :
  token_history (st.with_selected_starter v s) = token_history s.
Proof. reflexivity. Qed.
Lemma exchanges_with_selected_starter v s :
  exchanges (st.with_selected_starter v s) = exchanges s.
Proof. reflexivity. Qed.

Create Rewrite HintDb session.
#[local] Hint Rewrite
  turns_defaults token_history_defaults exchanges_defaults
  turns_boxed token_history_boxed exchanges_boxed
  turns_consumed token_history_consumed exchanges_consumed
  turns_deliver token_history_deliver exchanges_deliver
  turns_settle token_history_settle exchanges_settle
  turns_with_user_input token_history_with_user_input exchanges_with_user_input
  turns_with_selected_starter token_history_with_selected_starter
  exchanges_with_selected_starter : session.

Lemma submitted_boxed_defaults s : submitted (boxed (defaults s)) = submitted s.
Proof. by_cases_on_keys s. Qed.

Lemma settled_settle s : settled (settle s).
Proof.
  destruct s as [[?|] [?|] [?|] [?|] [?|]]; repeat split.
Qed.

Lemma settle_settled s : settled s -> settle s = s.
Proof.
  intros ((Hh & Hm & Hn) & Hu & Hs).
  destruct s as [[h|] [m|] [n|] [u|] [ss|]]; cbn in *;
    try discriminate; reflexivity.
Qed.

Lemma pressed_starter_none w :
  pressed_starter w get_sample_conversations = None <->
  no_starter_pressed w = true.
Proof.
  unfold no_starter_pressed.
  induction get_sample_conversations as [|[topic starter] rest IH];
    cbn [pressed_starter forallb fst].
  - tauto.
  - destruct (st.button w ("starter_" ++ topic)%string); cbn [negb andb].
    + split; intros H; discriminate H.
    + exact IH.
Qed.

(** ** Runs and interactions *)

Lemma run_idle env w s :
  run env (idle w) s =
  (st.Normal tt, settle s,
   st.ElMetric "Messages Exchanged" (Z.of_nat (length (turns s)))
   :: chat_view (turns s)).
Proof.
  rewrite run_outcome_correct. reflexivity.
Qed.

Lemma generate_response_returns tokenizer model chat_history user_input
    max_length :
  exists text history,
    generate_response tokenizer model chat_history user_input max_length
    = inr (text, history).
Proof.
  unfold generate_response, Result.try_except.
  destruct (generate_response_try _ _ _ _ _) as [e|[text history]].
  - now exists (apology e), None.
  - now exists text, history.
Qed.

(** What an interaction does to the conversation: it clears it, leaves it
    as it is, or appends one exchange. *)
Lemma state_after_cases env w s :
  (st.button w "🔄 Clear Chat History" = true /\
   turns (state_after env w s) = [] /\
   token_history (state_after env w s) = None /\
   exchanges (state_after env w s) = 0%Z)
  \/
  (st.button w "🔄 Clear Chat History" = false /\
   sends env w s = None /\
   turns (state_after env w s) = turns s /\
   token_history (state_after env w s) = token_history s /\
   exchanges (state_after env w s) = exchanges s)
  \/
  (st.button w "🔄 Clear Chat History" = false /\
   exists tokenizer model text response history,
     sends env w s = Some (tokenizer, model, text) /\
     generate_response tokenizer model (token_history s) text (st.slider w)
     = inr (response, history) /\
     turns (state_after env w s)
     = turns s ++ [("user", text); ("ai", response)] /\
     token_history (state_after env w s) = history /\
     exchanges (state_after env w s) = (exchanges s + 1)%Z).
Proof.
  unfold state_after, interact, sends, is_send, sent_text.
  rewrite run_outcome_correct. unfold run_outcome.
  rewrite submitted_boxed_defaults.
  destruct (st.button w "🔄 Clear Chat History") eqn:Hclear.
  { left. rewrite run_idle. cbn [fst snd].
    autorewrite with session. repeat split. }
  right.
  destruct (st.button w "🗑️ Clear Input") eqn:Hinput.
  { left. cbn [fst snd]. autorewrite with session.
    rewrite !andb_false_r. repeat split. }
  destruct (pressed_starter w get_sample_conversations) as [starter|] eqn:Hp.
  { left. rewrite run_idle. cbn [fst snd]. autorewrite with session.
    assert (Hn : no_starter_pressed w = false).
    { destruct (no_starter_pressed w) eqn:E; [|reflexivity].
      apply pressed_starter_none in E. congruence. }
    rewrite Hn, !andb_false_r. repeat split. }
  apply pressed_starter_none in Hp. rewrite Hp. cbn [negb]. rewrite !andb_true_r.
  destruct (st.button w "💬 Send Message" && truthy (submitted (deliver w s)))
    eqn:Hsend.
  2:{ left. cbn [fst snd]. autorewrite with session. repeat split. }
  destruct (load_chatbot_try env) as [e|[tokenizer model]] eqn:Hload.
  { left. cbn [fst snd]. autorewrite with session. repeat split. }
  right. autorewrite with session.
  destruct (generate_response_returns tokenizer model (token_history s)
              (submitted (deliver w s)) (st.slider w))
    as (response & history & Hgen).
  rewrite Hgen. rewrite run_idle. cbn [fst snd].
  split; [reflexivity|].
  exists tokenizer, model, (submitted (deliver w s)), response, history.
  autorewrite with session.
  unfold exchanged. cbn. autorewrite with session. repeat split.
  exact Hgen.
Qed.

(** ** [generate_response]: the paths through the [try] block *)

Lemma generate_response_try_success tokenizer model chat_history user_input
    max_length response history :
  generate_response_try tokenizer model chat_history user_input max_length
  = inr (response, history) <->
  exists marked new_ids out,
    str_add user_input (eos_token tokenizer) = inr marked /\
    encode tokenizer marked = inr new_ids /\
    generate model (bot_input_ids chat_history new_ids)
      (generation_kwargs tokenizer max_length) = inr out /\
    decode tokenizer
      (skipn (length (bot_input_ids chat_history new_ids)) out) true
    = inr response /\
    history = Some out.
Proof.
  unfold generate_response_try, Result.bind, Result.ret. split.
  - destruct (str_add user_input (eos_token tokenizer)) as [e|marked];
      [discriminate|].
    destruct (encode tokenizer marked) as [e|new_ids] eqn:Henc; [discriminate|].
    destruct (generate model _ _) as [e|out] eqn:Hgen; [discriminate|].
    destruct (decode tokenizer _ true) as [e|text] eqn:Hdec; [discriminate|].
    intros [= <- <-]. exists marked, new_ids, out. repeat split; assumption.
  - intros (marked & new_ids & out & -> & -> & -> & -> & ->). reflexivity.
Qed.

Lemma generate_response_try_failure tokenizer model chat_history user_input
    max_length e :
  generate_response_try tokenizer model chat_history user_input max_length
  = inl e <->
  str_add user_input (eos_token tokenizer) = inl e \/
  (exists marked,
      str_add user_input (eos_token tokenizer) = inr marked /\
      encode tokenizer marked = inl e) \/
  (exists marked new_ids,
      str_add user_input (eos_token tokenizer) = inr marked /\
      encode tokenizer marked = inr new_ids /\
      generate model (bot_input_ids chat_history new_ids)
        (generation_kwargs tokenizer max_length) = inl e) \/
  (exists marked new_ids out,
      str_add user_input (eos_token tokenizer) = inr marked /\
      encode tokenizer marked = inr new_ids /\
      generate model (bot_input_ids chat_history new_ids)
        (generation_kwargs tokenizer max_length) = inr out /\
      decode tokenizer
        (skipn (length (bot_input_ids chat_history new_ids)) out) true
      = inl e).
Proof.
  unfold generate_response_try, Result.bind, Result.ret. split.
  - intros H.
    destruct (str_add user_input (eos_token tokenizer)) as [e0|marked].
    { injection H as ->. now left. }
    right. destruct (encode tokenizer marked) as [e0|new_ids] eqn:Henc.
    { injection H as ->. left. now exists marked. }
    right. destruct (generate model _ _) as [e0|out] eqn:Hgen.
    { injection H as ->. left. now exists marked, new_ids. }
    right. destruct (decode tokenizer _ true) as [e0|text] eqn:Hdec.
    { injection H as ->. now exists marked, new_ids, out. }
    discriminate.
  - intros [-> | [(marked & -> & ->) | [(marked & new_ids & -> & -> & ->)
             | (marked & new_ids & out & -> & -> & -> & ->)]]]; reflexivity.
Qed.

Lemma generate_response_failure tokenizer model chat_history user_input
    max_length e :
  generate_response_try tokenizer model chat_history user_input max_length
  = inl e ->
  generate_response tokenizer model chat_history user_input max_length
  = inr (apology e, None).
Proof. unfold generate_response. now intros ->. Qed.

Lemma generate_response_success tokenizer model chat_history user_input
    max_length r :
  generate_response_try tokenizer model chat_history user_input max_length
  = inr r ->
  generate_response tokenizer model chat_history user_input max_length = inr r.
Proof. unfold generate_response. now intros ->. Qed.

(** C9: [generate_response] never raises: for every input it returns a
    pair of a text and a history.  The history is [None] exactly when the
    [try] block raised, and the text is then the apology for that
    exception; when the block completes, the text is the decoded reply and
    the history is the tensor that [model.generate] returned, which is not
    [None]. *)
Theorem generate_response_total tokenizer model chat_history user_input
    max_length :
  exists text history,
    generate_response tokenizer model chat_history user_input max_length
    = inr (text, history) /\
    (history = None <->
     exists e,
       generate_response_try tokenizer model chat_history user_input
         max_length = inl e) /\
    (forall e,
        generate_response_try tokenizer model chat_history user_input
          max_length = inl e ->
        text = apology e) /\
    (forall response ids,
        generate_response_try tokenizer model chat_history user_input
          max_length = inr (response, ids) ->
        text = response /\
        exists new_ids out,
          generate model (bot_input_ids chat_history new_ids)
            (generation_kwargs tokenizer max_length) = inr out /\
          history = Some out).
Proof.
  destruct (generate_response_try tokenizer model chat_history user_input
              max_length) as [e|[response ids]] eqn:Htry.
  - exists (apology e), None. split; [|split; [|split]].
    + now apply generate_response_failure.
    + split; [intros _; now exists e | reflexivity].
    + now intros e' [= ->].
    + discriminate.
  - exists response, ids. split; [|split; [|split]].
    + now apply generate_response_success.
    + apply generate_response_try_success in Htry.
      destruct Htry as (_ & _ & out & _ & _ & _ & _ & ->).
      split; [discriminate | intros (e & He); discriminate].
    + discriminate.
    + intros response' ids' [= <- <-]. split; [reflexivity|].
      apply generate_response_try_success in Htry.
      destruct Htry as (_ & new_ids & out & _ & _ & Hgen & _ & ->).
      now exists new_ids, out.
Qed.

(** C7: when the end-of-turn marker exists and the user text with the
    marker appended encodes to [new_ids], the model is asked to continue
    the prior history followed by [new_ids], or [new_ids] alone when there
    is no prior history, and what it answers there decides the result. *)
Theorem generation_input_is_history_then_new_turn tokenizer model chat_history
    user_input max_length eos new_ids :
  eos_token tokenizer = Some eos ->
  encode tokenizer (user_input ++ eos)%string = inr new_ids ->
  let input :=
    match chat_history with
    | Some history => history ++ new_ids
    | None => new_ids
    end in
  generate_response tokenizer model chat_history user_input max_length =
  match generate model input (generation_kwargs tokenizer max_length) with
  | inl e => inr (apology e, None)
  | inr out =>
      match decode tokenizer (skipn (length input) out) true with
      | inl e => inr (apology e, None)
      | inr response => inr (response, Some out)
      end
  end.
Proof.
  intros Heos Henc input.
  unfold generate_response, generate_response_try, Result.try_except,
    Result.bind, Result.ret, str_add.
  rewrite Heos. unfold Result.ret. rewrite Henc.
  change (bot_input_ids chat_history new_ids) with input.
  destruct (generate model input _) as [e|out]; [reflexivity|].
  destruct (decode tokenizer _ true); reflexivity.
Qed.

(** C8: the keyword arguments of every call of [model.generate] are those
    of the fixed policy (3 beams, no repeated 2-gram, temperature 0.7,
    sampling) with the maximum length of the caller and the pad and
    end-of-turn ids of the tokenizer; two models that answer alike under
    that policy make [generate_response] return alike. *)
Theorem generation_uses_fixed_policy :
  (forall tokenizer max_length,
      generation_kwargs tokenizer max_length
      = fixed_policy max_length (pad_token_id tokenizer)
          (eos_token_id tokenizer)) /\
  (forall tokenizer model model' chat_history user_input max_length,
      (forall input,
          generate model input
            (fixed_policy max_length (pad_token_id tokenizer)
               (eos_token_id tokenizer))
          = generate model' input
              (fixed_policy max_length (pad_token_id tokenizer)
                 (eos_token_id tokenizer))) ->
      generate_response tokenizer model chat_history user_input max_length
      = generate_response tokenizer model' chat_history user_input
          max_length).
Proof.
  split; [reflexivity|].
  intros tokenizer model model' chat_history user_input max_length Hsame.
  unfold generate_response, generate_response_try, Result.bind.
  destruct (str_add user_input (eos_token tokenizer)) as [e|marked];
    [reflexivity|].
  destruct (encode tokenizer marked) as [e|new_ids]; [reflexivity|].
  change (generation_kwargs tokenizer max_length)
    with (fixed_policy max_length (pad_token_id tokenizer)
            (eos_token_id tokenizer)).
  now rewrite Hsame.
Qed.

(** C6: after a successful generation the reply is the decoding, with
    [skip_special_tokens] set, of the model output beyond the length of the
    input and of nothing else.  For a tokenizer whose [decode] honours the
    flag, the reply is then the text of the tokens of that span that are
    not special, and the end-of-turn token is not among them. *)
Theorem reply_decodes_only_the_new_span tokenizer model chat_history
    user_input max_length response out :
  skips_special_tokens tokenizer ->
  generate_response tokenizer model chat_history user_input max_length
  = inr (response, Some out) ->
  exists marked new_ids shown,
    str_add user_input (eos_token tokenizer) = inr marked /\
    encode tokenizer marked = inr new_ids /\
    generate model (bot_input_ids chat_history new_ids)
      (generation_kwargs tokenizer max_length) = inr out /\
    decode tokenizer
      (skipn (length (bot_input_ids chat_history new_ids)) out) true
    = inr response /\
    shown
    = filter (fun id => negb (is_special tokenizer id))
        (skipn (length (bot_input_ids chat_history new_ids)) out) /\
    decode tokenizer shown true = inr response /\
    Forall (fun id => is_special tokenizer id = false) shown /\
    (forall id, eos_token_id tokenizer = Some id -> ~ In id shown).
Proof.
  intros [Hskip Heos] Hgen.
  assert (Htry :
    generate_response_try tokenizer model chat_history user_input max_length
    = inr (response, Some out)).
  { unfold generate_response, Result.try_except in Hgen.
    destruct (generate_response_try _ _ _ _ _) as [e|r]; [discriminate|].
    exact Hgen. }
  apply generate_response_try_success in Htry.
  destruct Htry as (marked & new_ids & out' & Hadd & Henc & Hmodel & Hdec & [= <-]).
  set (span := skipn (length (bot_input_ids chat_history new_ids)) out) in *.
  assert (Hshown :
    Forall (fun id => is_special tokenizer id = false)
      (filter (fun id => negb (is_special tokenizer id)) span)).
  { apply Forall_forall. intros id Hin. apply filter_In in Hin.
    destruct Hin as [_ Hin]. now apply negb_true_iff in Hin. }
  exists marked, new_ids, (filter (fun id => negb (is_special tokenizer id)) span).
  repeat split; try assumption.
  - now rewrite <- Hskip.
  - intros id Hid Hin.
    rewrite Forall_forall in Hshown. specialize (Hshown id Hin).
    rewrite (Heos id Hid) in Hshown. discriminate.
Qed.

(** ** Sessions *)

Lemma keys_settle s :
  st.chat_history (settle s) = Some (turns s) /\
  st.model_chat_history (settle s) = Some (token_history s) /\
  st.conversation_count (settle s) = Some (exchanges s).
Proof.
  destruct s as [[?|] [?|] [?|] [?|] [?|]]; repeat split.
Qed.

Lemma sends_iff env w s tokenizer model text :
  sends env w s = Some (tokenizer, model, text) <->
  is_send w = true /\
  truthy (sent_text w s) = true /\
  load_chatbot_try env = inr (tokenizer, model) /\
  text = sent_text w s.
Proof.
  unfold sends. split.
  - destruct (is_send w); cbn [andb]; [|discriminate].
    destruct (truthy (sent_text w s)); [|discriminate].
    destruct (load_chatbot_try env) as [e|[tokenizer' model']]; [discriminate|].
    intros [= <- <- <-]. repeat split.
  - intros (-> & -> & -> & ->). reflexivity.
Qed.

Lemma is_send_buttons w :
  is_send w = true ->
  st.button w "💬 Send Message" = true /\
  st.button w "🔄 Clear Chat History" = false /\
  st.button w "🗑️ Clear Input" = false /\
  pressed_starter w get_sample_conversations = None.
Proof.
  unfold is_send. intros H.
  apply andb_prop in H. destruct H as [H Hstart].
  apply andb_prop in H. destruct H as [H Hinput].
  apply andb_prop in H. destruct H as [Hsend Hclear].
  apply negb_true_iff in Hinput, Hclear.
  apply pressed_starter_none in Hstart. auto.
Qed.

(** The state an interaction leaves: that of an idle run, unless the run
    stopped at the refused assignment of line 167, before the pending
    starter is consumed. *)
Lemma state_after_shape env w s :
  (exists s', state_after env w s = settle s') \/
  (st.button w "🔄 Clear Chat History" = false /\
   st.button w "🗑️ Clear Input" = true /\
   state_after env w s = boxed (defaults (deliver w s))).
Proof.
  unfold state_after, interact. rewrite run_outcome_correct.
  unfold run_outcome.
  destruct (st.button w "🔄 Clear Chat History").
  { left. rewrite run_idle. cbn [fst snd]. eauto. }
  destruct (st.button w "🗑️ Clear Input").
  { right. auto. }
  left.
  destruct (pressed_starter w get_sample_conversations).
  { rewrite run_idle. cbn [fst snd]. eauto. }
  fold (settle (deliver w s)).
  destruct (_ && _); [|cbn [fst snd]; eauto].
  destruct (load_chatbot_try env) as [e|[tokenizer model]];
    [cbn [fst snd]; eauto|].
  match goal with
  | |- context [generate_response ?t ?m ?h ?u ?l] =>
      destruct (generate_response_returns t m h u l) as (r & h' & ->)
  end.
  rewrite run_idle. cbn [fst snd]. eauto.
Qed.

Lemma settled_boxed_defaults s :
  st.selected_starter s = None -> settled (boxed (defaults s)).
Proof.
  destruct s as [[?|] [?|] [?|] [?|] [?|]]; intros H; try discriminate H;
    repeat split.
Qed.

Lemma state_after_initialised env w s : initialised (state_after env w s).
Proof.
  destruct (state_after_shape env w s) as [(s' & ->) | (_ & _ & ->)].
  - apply settled_settle.
  - apply initialised_boxed, initialised_defaults.
Qed.

Lemma state_after_settled env w s :
  st.selected_starter s = None -> settled (state_after env w s).
Proof.
  intros Hs.
  destruct (state_after_shape env w s) as [(s' & ->) | (_ & _ & ->)].
  - apply settled_settle.
  - apply settled_boxed_defaults. unfold deliver.
    destruct (st.typed w); exact Hs.
Qed.

(** A run that sends appends the exchange; the assistant entry is the
    first component of what [generate_response] returns on the session's
    token history, and the second component becomes the token history. *)
Lemma state_after_send env w s tokenizer model :
  load_chatbot_try env = inr (tokenizer, model) ->
  is_send w = true ->
  truthy (sent_text w s) = true ->
  exists response history,
    generate_response tokenizer model (token_history s) (sent_text w s)
      (st.slider w) = inr (response, history) /\
    turns (state_after env w s)
    = turns s ++ [("user", sent_text w s); ("ai", response)] /\
    token_history (state_after env w s) = history /\
    exchanges (state_after env w s) = (exchanges s + 1)%Z.
Proof.
  intros Hload Hsend Htext.
  assert (Hs : sends env w s = Some (tokenizer, model, sent_text w s))
    by (apply sends_iff; auto).
  destruct (state_after_cases env w s)
    as [(Hclear & _) | [(_ & Hnone & _) | (_ & Hsent)]].
  - apply is_send_buttons in Hsend. destruct Hsend as (_ & Hc & _). congruence.
  - congruence.
  - destruct Hsent as (t & m & text & response & history & Hs' & Hgen & H).
    rewrite Hs in Hs'. injection Hs' as <- <- <-.
    now exists response, history.
Qed.

(** C4: pressing the clear button, in whatever state the session is,
    leaves the turn list empty, the token history absent and the counter at
    0, and the page shown afterwards carries the metric with value 0 above
    the welcome text. *)
Theorem clear_resets_session env w s :
  st.button w "🔄 Clear Chat History" = true ->
  st.chat_history (state_after env w s) = Some [] /\
  st.model_chat_history (state_after env w s) = Some None /\
  st.conversation_count (state_after env w s) = Some 0%Z /\
  page_after env w s
  = [st.ElMetric "Messages Exchanged" 0;
     st.ElInfo "👋 Welcome! Start a conversation by typing a message below."].
Proof.
  intros Hclear. unfold state_after, page_after, interact.
  rewrite run_outcome_correct. unfold run_outcome. rewrite Hclear.
  rewrite run_idle. cbn [fst snd].
  destruct (keys_settle (cleared (defaults (deliver w s)))) as (-> & -> & ->).
  repeat split.
Qed.

(** C5: when loading fails, a send appends no turn: the turn list, the
    token history and the counter are those before the send, a session
    between interactions is left exactly as the widgets were delivered to
    it, and the page shows the load error and the failure message. *)
Theorem load_failure_appends_nothing env w s e :
  load_chatbot_try env = inl e ->
  is_send w = true ->
  truthy (sent_text w s) = true ->
  turns (state_after env w s) = turns s /\
  token_history (state_after env w s) = token_history s /\
  exchanges (state_after env w s) = exchanges s /\
  (settled (deliver w s) -> state_after env w s = deliver w s) /\
  exists page,
    page_after env w s
    = page ++
      [st.ElError ("Error loading model: " ++ str e)%string;
       st.ElError
         "Failed to load the chatbot model. Please refresh the page and try again."].
Proof.
  intros Hload Hsend Htext.
  apply is_send_buttons in Hsend.
  destruct Hsend as (Hsend & Hclear & Hinput & Hstart).
  unfold state_after, page_after, interact, sent_text in *.
  rewrite run_outcome_correct. unfold run_outcome.
  rewrite Hclear, Hinput, Hstart, Hsend, submitted_boxed_defaults, Htext, Hload.
  cbn [andb fst snd]. fold (settle (deliver w s)).
  autorewrite with session. repeat split.
  - apply settle_settled.
  - eexists. reflexivity.
Qed.

Lemma send_succeeds_inv env w s :
  send_succeeds env w s = true ->
  exists tokenizer model response history,
    sends env w s = Some (tokenizer, model, sent_text w s) /\
    generate_response_try tokenizer model (token_history s) (sent_text w s)
      (st.slider w) = inr (response, history).
Proof.
  unfold send_succeeds.
  destruct (sends env w s) as [[[tokenizer model] text]|] eqn:Hs;
    [|discriminate].
  pose proof (proj1 (sends_iff _ _ _ _ _ _) Hs) as (_ & _ & _ & ->).
  destruct (generate_response_try _ _ _ _ _) as [e|[response history]] eqn:Ht;
    [discriminate|].
  intros _. now exists tokenizer, model, response, history.
Qed.

Lemma alternating_app l l' :
  alternating l -> alternating l' -> alternating (l ++ l').
Proof.
  intros Hl Hl'.
  assert (H : forall n k, (length k <= n)%nat ->
                          alternating k -> alternating (k ++ l')).
  { induction n as [|n IH]; intros k Hlen Hk.
    - destruct k; [exact Hl' | cbn in Hlen; lia].
    - destruct k as [|[s1 m1] [|[s2 m2] rest]]; cbn in *;
        [exact Hl' | contradiction |].
      destruct Hk as (-> & -> & Hrest). repeat split.
      apply IH; [lia | exact Hrest]. }
  now apply (H (length l)).
Qed.

Lemma alternating_state_after env w s :
  alternating (turns s) -> alternating (turns (state_after env w s)).
Proof.
  intros Hs.
  destruct (state_after_cases env w s)
    as [(_ & -> & _) | [(_ & _ & -> & _) | (_ & Hsent)]].
  - exact I.
  - exact Hs.
  - destruct Hsent as (t & m & text & response & history & _ & _ & -> & _).
    apply alternating_app; [exact Hs | cbn; auto].
Qed.

Lemma alternating_session_after steps : forall s,
  alternating (turns s) -> alternating (turns (session_after steps s)).
Proof.
  induction steps as [|[env w] rest IH]; intros s Hs; cbn.
  - exact Hs.
  - now apply IH, alternating_state_after.
Qed.

(** C10: with the model loaded, a send appends the user entry with the
    submitted text and then the assistant entry with the text that
    [generate_response] returns, which is the apology when the generation
    raised; and the turn list of a session, whatever the interactions since
    its start, is made of user entries each followed by an assistant
    entry. *)
Theorem send_appends_user_then_assistant :
  (forall env w s tokenizer model,
      load_chatbot_try env = inr (tokenizer, model) ->
      is_send w = true ->
      truthy (sent_text w s) = true ->
      exists response history,
        generate_response tokenizer model (token_history s) (sent_text w s)
          (st.slider w) = inr (response, history) /\
        turns (state_after env w s)
        = turns s ++ [("user", sent_text w s); ("ai", response)] /\
        (forall e,
            generate_response_try tokenizer model (token_history s)
              (sent_text w s) (st.slider w) = inl e ->
            response = apology e)) /\
  (forall steps, alternating (turns (session_after steps st.fresh))).
Proof.
  split.
  - intros env w s tokenizer model Hload Hsend Htext.
    destruct (state_after_send env w s tokenizer model Hload Hsend Htext)
      as (response & history & Hgen & Hturns & _).
    exists response, history. repeat split; try assumption.
    intros e He. apply generate_response_failure in He.
    rewrite He in Hgen. now injection Hgen as <- _.
  - intros steps. now apply alternating_session_after.
Qed.

Lemma turns_after_successful_sends steps : forall s,
  all_sends_succeed steps s = true ->
  length (turns (session_after steps s))
  = (length (turns s) + 2 * length steps)%nat /\
  map fst (turns (session_after steps s))
  = map fst (turns s) ++ concat (repeat ["user"; "ai"] (length steps)).
Proof.
  induction steps as [|[env w] rest IH]; intros s Hall; cbn in *.
  - split; [lia | now rewrite app_nil_r].
  - apply andb_prop in Hall. destruct Hall as [Hok Hrest].
    apply send_succeeds_inv in Hok.
    destruct Hok as (tokenizer & model & r & h & Hs & _).
    apply sends_iff in Hs. destruct Hs as (Hsend & Htext & Hload & _).
    destruct (state_after_send env w s tokenizer model Hload Hsend Htext)
      as (response & history & _ & Hturns & _).
    destruct (IH _ Hrest) as [Hlen Hroles].
    rewrite Hlen, Hroles, Hturns, length_app, map_app, <- app_assoc.
    split; [cbn; lia | reflexivity].
Qed.

(** C2: after N sends from the start of a session, each with the model
    loaded and the generation succeeding, the turn list has 2N entries:
    N times a user entry followed by an assistant entry. *)
Theorem turn_list_length_after_sends steps :
  all_sends_succeed steps st.fresh = true ->
  length (turns (session_after steps st.fresh)) = (2 * length steps)%nat /\
  map fst (turns (session_after steps st.fresh))
  = concat (repeat ["user"; "ai"] (length steps)).
Proof.
  intros Hall. now apply turns_after_successful_sends in Hall.
Qed.

Lemma generate_response_calls_result tokenizer model chat_history user_input
    max_length :
  snd (generate_response_calls tokenizer model chat_history user_input
         max_length)
  = generate_response tokenizer model chat_history user_input max_length.
Proof.
  unfold generate_response_calls, generate_response, generate_response_try,
    Traced.try_except, Traced.bind, Traced.silent, Traced.calling, Traced.ret,
    Result.try_except, Result.bind, Result.ret, apology.
  destruct (str_add user_input (eos_token tokenizer)) as [e|marked];
    [reflexivity|].
  destruct (encode tokenizer marked) as [e|new_ids]; [reflexivity|].
  destruct (generate model _ _) as [e|out]; [reflexivity|].
  destruct (decode tokenizer _ true); reflexivity.
Qed.

(** Whatever happens, the calls are an initial part of: one [encode], one
    [generate] under the fixed policy, one [decode]. *)
Lemma generate_response_calls_once tokenizer model chat_history user_input
    max_length :
  exists marked input span n,
    fst (generate_response_calls tokenizer model chat_history user_input
           max_length)
    = firstn n
        [CallEncode marked;
         CallGenerate input (generation_kwargs tokenizer max_length);
         CallDecode span true].
Proof.
  unfold generate_response_calls, Traced.try_except, Traced.bind,
    Traced.silent, Traced.calling, Traced.ret.
  destruct (str_add user_input (eos_token tokenizer)) as [e|marked].
  { now exists EmptyString, [], [], 0%nat. }
  destruct (encode tokenizer marked) as [e|new_ids].
  { now exists marked, [], [], 1%nat. }
  destruct (generate model _ _) as [e|out].
  { now exists marked, (bot_input_ids chat_history new_ids), [], 2%nat. }
  exists marked, (bot_input_ids chat_history new_ids),
    (skipn (length (bot_input_ids chat_history new_ids)) out), 3%nat.
  destruct (decode tokenizer _ true); reflexivity.
Qed.

(** C3: when the marker cannot be appended or the encoding, the
    generation or the decoding raises during a send, [generate_response]
    returns the text "Sorry, I encountered an error: " followed by the
    message of that exception, and no history.  Nothing is tried again:
    the calls made are an initial part of one [encode], one [generate] and
    one [decode], in this order.  The text is the assistant entry of that
    send, and the session's token history is [None] afterwards. *)
Theorem generation_failure_becomes_apology env w s tokenizer model e :
  load_chatbot_try env = inr (tokenizer, model) ->
  is_send w = true ->
  truthy (sent_text w s) = true ->
  (str_add (sent_text w s) (eos_token tokenizer) = inl e \/
   (exists marked,
       str_add (sent_text w s) (eos_token tokenizer) = inr marked /\
       encode tokenizer marked = inl e) \/
   (exists marked new_ids,
       str_add (sent_text w s) (eos_token tokenizer) = inr marked /\
       encode tokenizer marked = inr new_ids /\
       generate model (bot_input_ids (token_history s) new_ids)
         (generation_kwargs tokenizer (st.slider w)) = inl e) \/
   (exists marked new_ids out,
       str_add (sent_text w s) (eos_token tokenizer) = inr marked /\
       encode tokenizer marked = inr new_ids /\
       generate model (bot_input_ids (token_history s) new_ids)
         (generation_kwargs tokenizer (st.slider w)) = inr out /\
       decode tokenizer
         (skipn (length (bot_input_ids (token_history s) new_ids)) out) true
       = inl e)) ->
  generate_response tokenizer model (token_history s) (sent_text w s)
    (st.slider w)
  = inr (("Sorry, I encountered an error: " ++ str e)%string, None) /\
  snd (generate_response_calls tokenizer model (token_history s)
         (sent_text w s) (st.slider w))
  = inr (("Sorry, I encountered an error: " ++ str e)%string, None) /\
  (exists marked input span n,
      fst (generate_response_calls tokenizer model (token_history s)
             (sent_text w s) (st.slider w))
      = firstn n
          [CallEncode marked;
           CallGenerate input (generation_kwargs tokenizer (st.slider w));
           CallDecode span true]) /\
  turns (state_after env w s)
  = turns s
    ++ [("user", sent_text w s);
        ("ai", ("Sorry, I encountered an error: " ++ str e)%string)] /\
  st.model_chat_history (state_after env w s) = Some None.
Proof.
  intros Hload Hsend Htext Hfail.
  apply generate_response_try_failure, generate_response_failure in Hfail.
  destruct (state_after_send env w s tokenizer model Hload Hsend Htext)
    as (response & history & Hgen & Hturns & Hhist & _).
  rewrite Hfail in Hgen. injection Hgen as <- <-.
  split; [exact Hfail|].
  split; [now rewrite generate_response_calls_result|].
  split; [apply generate_response_calls_once|].
  split; [exact Hturns|].
  destruct (state_after_initialised env w s) as (_ & -> & _).
  now rewrite Hhist.
Qed.

(** ** Growth of the token history *)

Lemma bot_input_ids_history s new_ids :
  bot_input_ids (token_history s) new_ids = history_tokens s ++ new_ids.
Proof.
  unfold bot_input_ids, history_tokens. now destruct (token_history s).
Qed.

(** A send that succeeds on a model that extends its input appends the
    encoded turn and the generated tokens to the token history. *)
Lemma history_after_successful_send env w s tokenizer model text :
  sends env w s = Some (tokenizer, model, text) ->
  send_succeeds env w s = true ->
  extends_input model ->
  exists new_ids out,
    (marked <- str_add text (eos_token tokenizer) ;;
     encode tokenizer marked)%result = inr new_ids /\
    generate model (bot_input_ids (token_history s) new_ids)
      (generation_kwargs tokenizer (st.slider w)) = inr out /\
    history_tokens (state_after env w s)
    = history_tokens s ++ new_ids
      ++ skipn (length (bot_input_ids (token_history s) new_ids)) out.
Proof.
  intros Hs Hok Hext.
  apply send_succeeds_inv in Hok.
  destruct Hok as (t & m & response & history & Hs' & Htry).
  rewrite Hs in Hs'. injection Hs' as <- <- ->.
  pose proof (proj1 (sends_iff _ _ _ _ _ _) Hs) as (Hsend & Htext & Hload & _).
  destruct (state_after_send env w s tokenizer model Hload Hsend Htext)
    as (response' & history' & Hgen & _ & Hhist & _).
  rewrite (generate_response_success _ _ _ _ _ _ Htry) in Hgen.
  injection Hgen as <- <-.
  apply generate_response_try_success in Htry.
  destruct Htry as (marked & new_ids & out & Hadd & Henc & Hmodel & _ & ->).
  destruct (Hext _ _ _ Hmodel) as (reply & ->).
  exists new_ids, (bot_input_ids (token_history s) new_ids ++ reply).
  split; [|split].
  - unfold Result.bind. now rewrite Hadd.
  - exact Hmodel.
  - unfold history_tokens at 1. rewrite Hhist.
    rewrite skipn_app, skipn_all, Nat.sub_diag. cbn [app skipn].
    rewrite bot_input_ids_history. now rewrite <- app_assoc.
Qed.

(** C1, as the code has it: over interactions that neither press the clear
    button nor contain a send whose generation fails, and with models whose
    answer extends their input, the token history never gets shorter and is
    the earlier history followed, in the order of the sends, by each
    encoded user turn and the tokens the model generated in reply to it. *)
Theorem token_history_grows_by_exchanges steps : forall s,
  (forall env w tokenizer model,
      In (env, w) steps ->
      load_chatbot_try env = inr (tokenizer, model) ->
      extends_input model) ->
  no_reset steps s = true ->
  history_tokens (session_after steps s)
  = history_tokens s
    ++ concat (map (fun exchange => fst exchange ++ snd exchange)
                 (generated_exchanges steps s)) /\
  map fst (generated_exchanges steps s) = encoded_turns steps s /\
  (length (history_tokens s)
   <= length (history_tokens (session_after steps s)))%nat.
Proof.
  induction steps as [|[env w] rest IH]; intros s Hext Hno.
  - cbn. rewrite app_nil_r. auto.
  - cbn [no_reset] in Hno.
    apply andb_prop in Hno. destruct Hno as [Hno Hrest].
    apply andb_prop in Hno. destruct Hno as [Hclear Hok].
    apply negb_true_iff in Hclear.
    assert (Hext' : forall env0 w0 tokenizer model,
               In (env0, w0) rest ->
               load_chatbot_try env0 = inr (tokenizer, model) ->
               extends_input model).
    { intros env0 w0 t m Hin. apply (Hext env0 w0). now right. }
    destruct (IH (state_after env w s) Hext' Hrest) as (Hhist & Henc & Hle).
    cbn [session_after encoded_turns generated_exchanges].
    destruct (sends env w s) as [[[tokenizer model] text]|] eqn:Hs.
    + pose proof (proj1 (sends_iff _ _ _ _ _ _) Hs) as (_ & _ & Hload & _).
      assert (Hmodel : extends_input model).
      { apply (Hext env w tokenizer model); [now left | exact Hload]. }
      destruct (history_after_successful_send _ _ _ _ _ _ Hs Hok Hmodel)
        as (new_ids & out & -> & -> & Hstep).
      rewrite Hstep in Hhist, Hle.
      cbn [app map concat fst snd]. repeat split.
      * now rewrite Hhist, <- !app_assoc.
      * now rewrite Henc.
      * rewrite !length_app in Hle. lia.
    + destruct (state_after_cases env w s)
        as [(Hc & _) | [(_ & _ & _ & Hsame & _) | (_ & Hsent)]].
      * congruence.
      * assert (Hstep : history_tokens (state_after env w s) = history_tokens s)
          by (unfold history_tokens; now rewrite Hsame).
        rewrite Hstep in Hhist, Hle.
        cbn [app]. repeat split; assumption.
      * destruct Hsent as (t & m & text & r & h & Hs' & _). congruence.
Qed.

(** ** The sample tokenizer and model meet the contracts *)

Lemma toy_load : load_chatbot_try Toy.env = inr (Sample.tokenizer, Toy.model).
Proof. reflexivity. Qed.

Lemma toy_model_extends_input : extends_input Toy.model.
Proof.
  intros input kwargs out.
  unfold Toy.model, generate, Result.raise, Result.ret.
  destruct (Nat.leb Toy.n_positions (length input)); [discriminate|].
  intros [= <-]. now eexists.
Qed.

Lemma toy_decode_skips ids :
  fold_right (fun id text => (Toy.decode_token true id ++ text)%string)
    EmptyString ids
  = fold_right (fun id text => (Toy.decode_token true id ++ text)%string)
      EmptyString
      (filter (fun id => negb (is_special Sample.tokenizer id)) ids).
Proof.
  induction ids as [|id ids IH]; [reflexivity|].
  cbn [fold_right filter].
  change (is_special Sample.tokenizer id)
    with (Z.eqb id Toy.eos_id || false).
  rewrite orb_false_r.
  destruct (Z.eqb id Toy.eos_id) eqn:E; cbn [negb fold_right].
  - unfold Toy.decode_token at 1. rewrite E. exact IH.
  - now rewrite IH.
Qed.

Lemma toy_skips_special_tokens : skips_special_tokens Sample.tokenizer.
Proof.
  split.
  - intros ids.
    change (decode Sample.tokenizer ?l true)
      with (@inr exception string
              (fold_right
                 (fun id text => (Toy.decode_token true id ++ text)%string)
                 EmptyString l)).
    now rewrite <- toy_decode_skips.
  - intros id [= <-]. reflexivity.
Qed.

Lemma sample_models_extend_input env w tokenizer model :
  In (env, w) Sample.two_sends ->
  load_chatbot_try env = inr (tokenizer, model) ->
  extends_input model.
Proof.
  intros [H|[H|[]]]; injection H as <- _; rewrite toy_load;
    intros [= _ <-]; apply toy_model_extends_input.
Qed.

(** ** The script on the sample session *)

Example first_exchange :
  interact Toy.env (Toy.send "hi") st.fresh
  = (st.Normal tt,
     {| st.chat_history := Some [("user", "hi"); ("ai", "ok")];
        st.model_chat_history :=
          Some (Some [104; 105; 50256; 111; 107; 50256]%Z);
        st.conversation_count := Some 1%Z;
        st.user_input := Some "hi";
        st.selected_starter := None |},
     [st.ElMetric "Messages Exchanged" 2;
      st.ElMarkdown "👤 **You:** hi";
      st.ElMarkdown "---";
      st.ElMarkdown "🤖 **AI:** ok"]).
Proof. vm_compute. reflexivity. Qed.

Example overflowing_exchange :
  turns (state_after Toy.env (Toy.send Sample.long_text) Sample.greeted)
  = [("user", "hi"); ("ai", "ok");
     ("user", "a much longer message than the window");
     ("ai", "Sorry, I encountered an error: index out of range in self")].
Proof. vm_compute. reflexivity. Qed.

(** A starter button stores the starter and reruns; the rerun takes it as
    the input and deletes the key, and line 188 then finds neither the send
    button nor the key. *)
Example starter_is_not_submitted :
  state_after Toy.env (Toy.pick "Science") Sample.greeted
  = settle Sample.greeted.
Proof. vm_compute. reflexivity. Qed.

Example sample_generated_exchanges :
  generated_exchanges Sample.two_sends st.fresh
  = [([104; 105; 50256]%Z, [111; 107; 50256]%Z);
     ([121; 111; 50256]%Z, [111; 107; 50256]%Z)].
Proof. vm_compute. reflexivity. Qed.

(** ** The claims on the sample session *)

Lemma token_history_grows_by_exchanges_witness :
  history_tokens (session_after Sample.two_sends st.fresh)
  = history_tokens st.fresh
    ++ concat (map (fun exchange => fst exchange ++ snd exchange)
                 (generated_exchanges Sample.two_sends st.fresh)) /\
  map fst (generated_exchanges Sample.two_sends st.fresh)
  = encoded_turns Sample.two_sends st.fresh /\
  (length (history_tokens st.fresh)
   <= length (history_tokens (session_after Sample.two_sends st.fresh)))%nat.
Proof.
  apply (token_history_grows_by_exchanges Sample.two_sends st.fresh).
  - exact sample_models_extend_input.
  - vm_compute. reflexivity.
Defined.

(** C1 as stated fails: a send whose generation fails, here because the
    conversation has outgrown the context window of the model, empties the
    token history although nothing was cleared; and after a successful send
    the history holds the generated reply besides the encoded turn. *)
Lemma token_history_shrinks_without_clear :
  ~ (forall env w s,
        st.button w "🔄 Clear Chat History" = false ->
        (length (history_tokens s)
         <= length (history_tokens (state_after env w s)))%nat) /\
  history_tokens Sample.greeted
  <> concat (encoded_turns Sample.greeting st.fresh).
Proof.
  split.
  - intros H.
    specialize (H Toy.env (Toy.send Sample.long_text) Sample.greeted eq_refl).
    vm_compute in H. lia.
  - vm_compute. discriminate.
Qed.

Lemma turn_list_length_after_sends_witness :
  length (turns (session_after Sample.two_sends st.fresh)) = 4%nat /\
  map fst (turns (session_after Sample.two_sends st.fresh))
  = ["user"; "ai"; "user"; "ai"].
Proof.
  apply (turn_list_length_after_sends Sample.two_sends).
  vm_compute. reflexivity.
Defined.

Lemma generation_failure_becomes_apology_witness :
  generate_response Sample.tokenizer Toy.model (token_history Sample.greeted)
    (sent_text (Toy.send Sample.long_text) Sample.greeted)
    (st.slider (Toy.send Sample.long_text))
  = inr (("Sorry, I encountered an error: " ++ str Sample.overflow)%string,
         None) /\
  snd (generate_response_calls Sample.tokenizer Toy.model
         (token_history Sample.greeted)
         (sent_text (Toy.send Sample.long_text) Sample.greeted)
         (st.slider (Toy.send Sample.long_text)))
  = inr (("Sorry, I encountered an error: " ++ str Sample.overflow)%string,
         None) /\
  (exists marked input span n,
      fst (generate_response_calls Sample.tokenizer Toy.model
             (token_history Sample.greeted)
             (sent_text (Toy.send Sample.long_text) Sample.greeted)
             (st.slider (Toy.send Sample.long_text)))
      = firstn n
          [CallEncode marked;
           CallGenerate input
             (generation_kwargs Sample.tokenizer
                (st.slider (Toy.send Sample.long_text)));
           CallDecode span true]) /\
  turns (state_after Toy.env (Toy.send Sample.long_text) Sample.greeted)
  = turns Sample.greeted
    ++ [("user", sent_text (Toy.send Sample.long_text) Sample.greeted);
        ("ai",
         ("Sorry, I encountered an error: " ++ str Sample.overflow)%string)] /\
  st.model_chat_history
    (state_after Toy.env (Toy.send Sample.long_text) Sample.greeted)
  = Some None.
Proof.
  apply (generation_failure_becomes_apology Toy.env
           (Toy.send Sample.long_text) Sample.greeted Sample.tokenizer
           Toy.model Sample.overflow).
  - reflexivity.
  - vm_compute. reflexivity.
  - vm_compute. reflexivity.
  - right. right. left.
    exists (Sample.long_text ++ Toy.eos)%string,
      (Toy.encode_from 0 (Sample.long_text ++ Toy.eos)%string).
    repeat split; vm_compute; reflexivity.
Defined.

Lemma clear_resets_session_witness :
  st.chat_history (state_after Toy.env Toy.clear Sample.greeted) = Some [] /\
  st.model_chat_history (state_after Toy.env Toy.clear Sample.greeted)
  = Some None /\
  st.conversation_count (state_after Toy.env Toy.clear Sample.greeted)
  = Some 0%Z /\
  page_after Toy.env Toy.clear Sample.greeted
  = [st.ElMetric "Messages Exchanged" 0;
     st.ElInfo "👋 Welcome! Start a conversation by typing a message below."].
Proof.
  apply (clear_resets_session Toy.env Toy.clear Sample.greeted).
  vm_compute. reflexivity.
Defined.

Lemma load_failure_appends_nothing_witness :
  turns (state_after Toy.offline (Toy.send "yo") Sample.greeted)
  = turns Sample.greeted /\
  token_history (state_after Toy.offline (Toy.send "yo") Sample.greeted)
  = token_history Sample.greeted /\
  exchanges (state_after Toy.offline (Toy.send "yo") Sample.greeted)
  = exchanges Sample.greeted /\
  (settled (deliver (Toy.send "yo") Sample.greeted) ->
   state_after Toy.offline (Toy.send "yo") Sample.greeted
   = deliver (Toy.send "yo") Sample.greeted) /\
  exists page,
    page_after Toy.offline (Toy.send "yo") Sample.greeted
    = page ++
      [st.ElError
         ("Error loading model: "
          ++ str (Exception "We couldn't connect to 'https://huggingface.co'"))%string;
       st.ElError
         "Failed to load the chatbot model. Please refresh the page and try again."].
Proof.
  apply (load_failure_appends_nothing Toy.offline (Toy.send "yo")
           Sample.greeted
           (Exception "We couldn't connect to 'https://huggingface.co'")).
  - reflexivity.
  - vm_compute. reflexivity.
  - vm_compute. reflexivity.
Defined.

Lemma reply_decodes_only_the_new_span_witness :
  exists marked new_ids shown,
    str_add "hi" (eos_token Sample.tokenizer) = inr marked /\
    encode Sample.tokenizer marked = inr new_ids /\
    generate Toy.model (bot_input_ids None new_ids)
      (generation_kwargs Sample.tokenizer 1000)
    = inr [104; 105; 50256; 111; 107; 50256]%Z /\
    decode Sample.tokenizer
      (skipn (length (bot_input_ids None new_ids))
         [104; 105; 50256; 111; 107; 50256]%Z) true
    = inr "ok" /\
    shown
    = filter (fun id => negb (is_special Sample.tokenizer id))
        (skipn (length (bot_input_ids None new_ids))
           [104; 105; 50256; 111; 107; 50256]%Z) /\
    decode Sample.tokenizer shown true = inr "ok" /\
    Forall (fun id => is_special Sample.tokenizer id = false) shown /\
    (forall id, eos_token_id Sample.tokenizer = Some id -> ~ In id shown).
Proof.
  apply (reply_decodes_only_the_new_span Sample.tokenizer Toy.model None "hi"
           1000 "ok" [104; 105; 50256; 111; 107; 50256]%Z).
  - exact toy_skips_special_tokens.
  - vm_compute. reflexivity.
Defined.

Lemma generation_input_is_history_then_new_turn_witness :
  generate_response Sample.tokenizer Toy.model (Some [104; 105; 50256]%Z)
    "yo" 1000
  = match
      generate Toy.model ([104; 105; 50256]%Z ++ [121; 111; 50256]%Z)
        (generation_kwargs Sample.tokenizer 1000)
    with
    | inl e => inr (apology e, None)
    | inr out =>
        match
          decode Sample.tokenizer
            (skipn (length ([104; 105; 50256]%Z ++ [121; 111; 50256]%Z)) out)
            true
        with
        | inl e => inr (apology e, None)
        | inr response => inr (response, Some out)
        end
    end.
Proof.
  apply (generation_input_is_history_then_new_turn Sample.tokenizer Toy.model
           (Some [104; 105; 50256]%Z) "yo" 1000 Toy.eos
           [121; 111; 50256]%Z).
  - reflexivity.
  - vm_compute. reflexivity.
Defined.

Lemma generation_uses_fixed_policy_witness :
  generate_response Sample.tokenizer Toy.model None "hi" 1000
  = generate_response Sample.tokenizer Toy.picky None "hi" 1000.
Proof.
  apply (proj2 generation_uses_fixed_policy Sample.tokenizer Toy.model
           Toy.picky None "hi" 1000%Z).
  intros input. reflexivity.
Defined.

Lemma send_appends_user_then_assistant_witness :
  (exists response history,
      generate_response Sample.tokenizer Toy.model
        (token_history Sample.greeted)
        (sent_text (Toy.send Sample.long_text) Sample.greeted)
        (st.slider (Toy.send Sample.long_text))
      = inr (response, history) /\
      turns (state_after Toy.env (Toy.send Sample.long_text) Sample.greeted)
      = turns Sample.greeted
        ++ [("user", sent_text (Toy.send Sample.long_text) Sample.greeted);
            ("ai", response)] /\
      (forall e,
          generate_response_try Sample.tokenizer Toy.model
            (token_history Sample.greeted)
            (sent_text (Toy.send Sample.long_text) Sample.greeted)
            (st.slider (Toy.send Sample.long_text)) = inl e ->
          response = apology e)) /\
  alternating (turns (session_after Sample.two_sends st.fresh)).
Proof.
  split.
  - apply (proj1 send_appends_user_then_assistant Toy.env
             (Toy.send Sample.long_text) Sample.greeted Sample.tokenizer
             Toy.model).
    + reflexivity.
    + vm_compute. reflexivity.
    + vm_compute. reflexivity.
  - apply (proj2 send_appends_user_then_assistant Sample.two_sends).
Defined.

(** ** Further properties of the script *)

Lemma selected_starter_settle s : st.selected_starter (settle s) = None.
Proof. now destruct (settled_settle s) as (_ & _ & H). Qed.

Lemma conversation_view_intersperse h :
  conversation_view h = intersperse divider (map turn_line h).
Proof.
  induction h as [|[role message] rest IH]; [reflexivity|].
  cbn [conversation_view map intersperse]. rewrite IH.
  destruct rest as [|next rest']; reflexivity.
Qed.

Lemma length_intersperse {A} (sep : A) l :
  length (intersperse sep l) = (2 * length l - 1)%nat.
Proof.
  induction l as [|x rest IH]; [reflexivity|].
  cbn [intersperse]. destruct rest as [|y rest']; [reflexivity|].
  cbn [length] in *. rewrite IH. lia.
Qed.

(** The exception element of the refused assignment of line 167. *)
Lemma interact_clear_input env w s :
  st.button w "🔄 Clear Chat History" = false ->
  st.button w "🗑️ Clear Input" = true ->
  interact env w s
  = (st.Raised (st.widget_key_error "user_input"),
     boxed (defaults (deliver w s)),
     (st.ElMetric "Messages Exchanged" (Z.of_nat (length (turns s)))
      :: chat_view (turns s))
     ++ [st.ElException (str (st.widget_key_error "user_input"))]).
Proof.
  intros Hclear Hinput. unfold interact.
  rewrite run_outcome_correct. unfold run_outcome. rewrite Hclear, Hinput.
  now autorewrite with session.
Qed.

(** The shape of every interaction in which the Clear Input button is not
    what stops the run: it ends normally, in a state that an idle run
    leaves, on a page that shows the conversation of that state, followed
    by the load errors if a send could not load the model. *)
Lemma interact_shape env w s :
  st.button w "🔄 Clear Chat History" = true \/
  st.button w "🗑️ Clear Input" = false ->
  exists s' notices,
    interact env w s
    = (st.Normal tt, settle s',
       st.ElMetric "Messages Exchanged"
         (Z.of_nat (length (turns (settle s'))))
       :: chat_view (turns (settle s')) ++ notices) /\
    (notices = [] \/
     exists e, load_chatbot_try env = inl e /\ is_send w = true /\
               notices = load_errors e).
Proof.
  intros Hw.
  unfold interact. rewrite run_outcome_correct. unfold run_outcome.
  assert (Hidle : forall s1,
    exists s' notices,
      run env (idle w) s1
      = (st.Normal tt, settle s',
         st.ElMetric "Messages Exchanged"
           (Z.of_nat (length (turns (settle s'))))
         :: chat_view (turns (settle s')) ++ notices) /\
      (notices = [] \/
       exists e, load_chatbot_try env = inl e /\ is_send w = true /\
                 notices = load_errors e)).
  { intros s1. exists s1, []. rewrite run_idle, turns_settle, app_nil_r. auto. }
  destruct (st.button w "🔄 Clear Chat History") eqn:Hclear; [apply Hidle|].
  destruct (st.button w "🗑️ Clear Input") eqn:Hinput.
  { destruct Hw; discriminate. }
  destruct (pressed_starter w get_sample_conversations) eqn:Hstart;
    [apply Hidle|].
  fold (settle (deliver w s)).
  destruct (st.button w "💬 Send Message") eqn:Hsend; cbn [andb].
  2:{ exists (deliver w s), []. autorewrite with session.
      rewrite app_nil_r. auto. }
  destruct (truthy _).
  2:{ exists (deliver w s), []. autorewrite with session.
      rewrite app_nil_r. auto. }
  destruct (load_chatbot_try env) as [e|[tokenizer model]] eqn:Hload.
  { exists (deliver w s), (load_errors e). autorewrite with session.
    split; [reflexivity|]. right. exists e. repeat split.
    unfold is_send. rewrite Hsend, Hclear, Hinput.
    now apply pressed_starter_none in Hstart as ->. }
  match goal with
  | |- context [generate_response ?t ?m ?h ?u ?l] =>
      destruct (generate_response_returns t m h u l) as (r & h' & ->)
  end.
  apply Hidle.
Qed.

(** X1: a run of [main] ends with an exception in one case only, the
    Clear Input button: the assignment of line 167 is refused, the
    conversation stays as it is and the page ends with the exception.  In
    every other case an interaction ends normally after at most two runs:
    the run that follows [st.rerun()] never asks for another one. *)
Theorem only_clear_input_raises env w s :
  (st.button w "🔄 Clear Chat History" = true \/
   st.button w "🗑️ Clear Input" = false ->
   fst (fst (interact env w s)) = st.Normal tt) /\
  (st.button w "🔄 Clear Chat History" = false ->
   st.button w "🗑️ Clear Input" = true ->
   fst (fst (interact env w s))
   = st.Raised (st.widget_key_error "user_input") /\
   turns (state_after env w s) = turns s /\
   token_history (state_after env w s) = token_history s /\
   exchanges (state_after env w s) = exchanges s /\
   st.user_input (state_after env w s) = Some (box (deliver w s)) /\
   page_after env w s
   = (st.ElMetric "Messages Exchanged" (Z.of_nat (length (turns s)))
      :: chat_view (turns s))
     ++ [st.ElException (str (st.widget_key_error "user_input"))]) /\
  fst (fst (run env (idle w) s)) = st.Normal tt.
Proof.
  split; [|split].
  - intros Hw.
    destruct (interact_shape env w s Hw) as (s' & notices & -> & _).
    reflexivity.
  - intros Hclear Hinput. unfold state_after, page_after.
    rewrite (interact_clear_input env w s Hclear Hinput). cbn [fst snd].
    autorewrite with session. repeat split.
    destruct (deliver w s) as [h m n [u|] ss]; reflexivity.
  - now rewrite run_idle.
Qed.

(** X2: after every interaction, even the first of a browser session, the
    keys [chat_history], [model_chat_history], [conversation_count] and
    [user_input] exist; and no starter is pending afterwards if none was
    pending before or if the run did not stop at the Clear Input button. *)
Theorem keys_exist_after_interaction env w s :
  (exists h m n text,
      st.chat_history (state_after env w s) = Some h /\
      st.model_chat_history (state_after env w s) = Some m /\
      st.conversation_count (state_after env w s) = Some n /\
      st.user_input (state_after env w s) = Some text) /\
  (st.selected_starter s = None \/
   st.button w "🔄 Clear Chat History" = true \/
   st.button w "🗑️ Clear Input" = false ->
   st.selected_starter (state_after env w s) = None).
Proof.
  split.
  - destruct (state_after_shape env w s) as [(s' & ->) | (_ & _ & ->)].
    + destruct (settled_settle s') as ((Hh & Hm & Hn) & Hu & _). eauto 10.
    + destruct (initialised_boxed _ (initialised_defaults (deliver w s)))
        as (Hh & Hm & Hn).
      exists (turns (boxed (defaults (deliver w s)))),
        (token_history (boxed (defaults (deliver w s)))),
        (exchanges (boxed (defaults (deliver w s)))),
        (box (deliver w s)).
      repeat split; try assumption.
      destruct (deliver w s) as [h m n [u|] ss]; reflexivity.
  - intros Hw.
    destruct (state_after_shape env w s)
      as [(s' & ->) | (Hclear & Hinput & Hstate)].
    + apply selected_starter_settle.
    + destruct Hw as [Hs | [Hc | Hi]]; [|congruence|congruence].
      now destruct (state_after_settled env w s Hs) as (_ & _ & H).
Qed.

(** X3: the page of every interaction shows the session as the interaction
    leaves it: the metric is the length of the turn list and below it
    stands the welcome text when the list is empty and the turns otherwise.
    Nothing follows, except the two error elements after a send that could
    not load the model, and the exception after the Clear Input button. *)
Theorem page_shows_the_session env w s :
  exists notices,
    page_after env w s
    = st.ElMetric "Messages Exchanged"
        (Z.of_nat (length (turns (state_after env w s))))
      :: match turns (state_after env w s) with
         | [] =>
             [st.ElInfo
                "👋 Welcome! Start a conversation by typing a message below."]
         | _ :: _ =>
             intersperse divider (map turn_line (turns (state_after env w s)))
         end ++ notices /\
    (notices = [] \/
     (exists e, load_chatbot_try env = inl e /\ is_send w = true /\
                notices = load_errors e) \/
     (st.button w "🔄 Clear Chat History" = false /\
      st.button w "🗑️ Clear Input" = true /\
      notices = [st.ElException (str (st.widget_key_error "user_input"))])).
Proof.
  unfold page_after, state_after.
  destruct (st.button w "🔄 Clear Chat History") eqn:Hclear;
    [|destruct (st.button w "🗑️ Clear Input") eqn:Hinput].
  - destruct (interact_shape env w s (or_introl Hclear))
      as (s' & notices & -> & Hn).
    exists notices. cbn [fst snd]. split; [|tauto].
    unfold chat_view. rewrite conversation_view_intersperse.
    destruct (turns (settle s')); reflexivity.
  - rewrite (interact_clear_input env w s Hclear Hinput). cbn [fst snd].
    exists [st.ElException (str (st.widget_key_error "user_input"))].
    autorewrite with session. split; [|auto].
    unfold chat_view. rewrite conversation_view_intersperse.
    destruct (turns s); reflexivity.
  - destruct (interact_shape env w s (or_intror Hinput))
      as (s' & notices & -> & Hn).
    exists notices. cbn [fst snd]. split; [|tauto].
    unfold chat_view. rewrite conversation_view_intersperse.
    destruct (turns (settle s')); reflexivity.
Qed.

(** X4: the loop of lines 144-151 shows one line per turn, a user line for
    the speaker "user" and an assistant line for any other, with a divider
    between consecutive turns and none after the last: 2n - 1 elements for
    n turns, and the session state is not touched. *)
Theorem display_turns_intersperses_dividers h s page :
  display_turns h s page
  = (st.Normal tt, s, page ++ intersperse divider (map turn_line h)) /\
  length (intersperse divider (map turn_line h)) = (2 * length h - 1)%nat.
Proof.
  split.
  - rewrite display_turns_spec. now rewrite conversation_view_intersperse.
  - now rewrite length_intersperse, length_map.
Qed.

Lemma pressed_starter_some w items topic starter :
  In (topic, starter) items ->
  st.button w ("starter_" ++ topic)%string = true ->
  pressed_starter w items <> None.
Proof.
  induction items as [|[topic' starter'] rest IH]; intros Hin Hb; [easy|].
  cbn [pressed_starter].
  destruct (st.button w ("starter_" ++ topic')%string) eqn:E; [discriminate|].
  destruct Hin as [[= -> ->]|Hin]; [congruence | now apply IH].
Qed.

(** X5: a starter button does not send its text.  The starter is stored
    and the script reruns; the rerun takes the starter as the input and
    deletes its key before line 188 tests for it, with the send button not
    pressed.  The conversation is as before and no starter stays pending. *)
Theorem starter_button_does_not_send env w s topic starter :
  In (topic, starter) get_sample_conversations ->
  st.button w ("starter_" ++ topic)%string = true ->
  st.button w "🔄 Clear Chat History" = false ->
  st.button w "🗑️ Clear Input" = false ->
  turns (state_after env w s) = turns s /\
  token_history (state_after env w s) = token_history s /\
  exchanges (state_after env w s) = exchanges s /\
  st.selected_starter (state_after env w s) = None /\
  page_after env w s
  = st.ElMetric "Messages Exchanged" (Z.of_nat (length (turns s)))
    :: chat_view (turns s).
Proof.
  intros Hin Hb Hclear Hinput.
  pose proof (pressed_starter_some w _ _ _ Hin Hb) as Hp.
  unfold state_after, page_after, interact.
  rewrite run_outcome_correct. unfold run_outcome. rewrite Hclear, Hinput.
  destruct (pressed_starter w get_sample_conversations) as [chosen|];
    [|congruence].
  rewrite run_idle. cbn [fst snd]. autorewrite with session.
  rewrite selected_starter_settle. repeat split.
Qed.

(** X6: an empty text is not sent.  When the text that would be submitted
    is empty and neither the clear button nor the Clear Input button is
    pressed, the conversation is as before, and the page shows no error
    even if the model cannot be loaded: loading is not attempted. *)
Theorem empty_text_is_not_sent env w s :
  truthy (sent_text w s) = false ->
  st.button w "🔄 Clear Chat History" = false ->
  st.button w "🗑️ Clear Input" = false ->
  fst (fst (interact env w s)) = st.Normal tt /\
  turns (state_after env w s) = turns s /\
  token_history (state_after env w s) = token_history s /\
  exchanges (state_after env w s) = exchanges s /\
  page_after env w s
  = st.ElMetric "Messages Exchanged" (Z.of_nat (length (turns s)))
    :: chat_view (turns s).
Proof.
  unfold sent_text. intros Htext Hclear Hinput.
  unfold state_after, page_after, interact.
  rewrite run_outcome_correct. unfold run_outcome.
  rewrite Hclear, Hinput, submitted_boxed_defaults, Htext, andb_false_r.
  destruct (pressed_starter w get_sample_conversations).
  { rewrite run_idle. cbn [fst snd]. autorewrite with session. repeat split. }
  cbn [fst snd]. autorewrite with session. repeat split.
Qed.

(** X7: rendering does not change the session.  Between interactions, a
    run in which no button is pressed and the text box is not edited leaves
    the session state exactly as it is and shows its conversation. *)
Theorem idle_run_changes_nothing env w s :
  settled s ->
  nothing_pressed w = true ->
  st.typed w = None ->
  interact env w s
  = (st.Normal tt, s,
     st.ElMetric "Messages Exchanged" (Z.of_nat (length (turns s)))
     :: chat_view (turns s)).
Proof.
  unfold nothing_pressed. intros Hs Hw Htyped.
  apply andb_prop in Hw. destruct Hw as [Hw Hstart].
  apply andb_prop in Hw. destruct Hw as [Hw Hinput].
  apply andb_prop in Hw. destruct Hw as [Hsend Hclear].
  apply negb_true_iff in Hsend, Hclear, Hinput.
  apply pressed_starter_none in Hstart.
  unfold interact. rewrite run_outcome_correct. unfold run_outcome, deliver.
  rewrite Htyped, Hclear, Hinput, Hstart, Hsend. cbn [andb].
  fold (settle s). rewrite (settle_settled s Hs). reflexivity.
Qed.

Lemma counter_state_after env w s :
  Z.of_nat (length (turns s)) = (2 * exchanges s)%Z ->
  Z.of_nat (length (turns (state_after env w s)))
  = (2 * exchanges (state_after env w s))%Z.
Proof.
  intros H.
  destruct (state_after_cases env w s)
    as [(_ & -> & _ & ->) | [(_ & _ & -> & _ & ->) | (_ & Hsent)]].
  - reflexivity.
  - exact H.
  - destruct Hsent as (t & m & text & r & h & _ & _ & -> & _ & ->).
    rewrite length_app. cbn [length]. lia.
Qed.

(** X8: in every state a session can reach, the counter
    [conversation_count] is half the length of the turn list, the number
    that the metric shows. *)
Theorem counter_is_half_the_turns steps :
  Z.of_nat (length (turns (session_after steps st.fresh)))
  = (2 * exchanges (session_after steps st.fresh))%Z.
Proof.
  assert (H : forall s,
             Z.of_nat (length (turns s)) = (2 * exchanges s)%Z ->
             Z.of_nat (length (turns (session_after steps s)))
             = (2 * exchanges (session_after steps s))%Z).
  { induction steps as [|[env w] rest IH]; intros s Hs; cbn [session_after].
    - exact Hs.
    - now apply IH, counter_state_after. }
  now apply H.
Qed.

(** X9: turns are only ever appended.  Over interactions none of which
    presses the clear button, the turn list keeps its entries in place and
    grows at its end by whole exchanges. *)
Theorem turns_are_append_only steps : forall s,
  never_cleared steps = true ->
  exists added,
    turns (session_after steps s) = turns s ++ added /\
    alternating added /\
    (length added <= 2 * length steps)%nat.
Proof.
  induction steps as [|[env w] rest IH]; intros s Hnever.
  - exists []. cbn. rewrite app_nil_r. auto.
  - cbn [never_cleared forallb snd] in Hnever.
    apply andb_prop in Hnever. destruct Hnever as [Hclear Hrest].
    apply negb_true_iff in Hclear.
    destruct (IH (state_after env w s) Hrest) as (added & Hturns & Halt & Hlen).
    cbn [session_after]. rewrite Hturns.
    destruct (state_after_cases env w s)
      as [(Hc & _) | [(_ & _ & -> & _) | (_ & Hsent)]].
    + congruence.
    + exists added. cbn [length]. repeat split; [exact Halt | lia].
    + destruct Hsent as (t & m & text & r & h & _ & _ & -> & _).
      exists ([("user", text); ("ai", r)] ++ added).
      rewrite <- app_assoc. repeat split.
      * cbn. auto.
      * rewrite length_app. cbn [length]. lia.
Qed.

(** X10: the tokenizer that [load_chatbot] hands out is the pretrained
    one, except that a missing padding token is replaced by the end-of-turn
    token: it then pads with the end-of-turn id, and it lacks a padding
    token only if it lacks the end-of-turn token too. *)
Theorem loaded_tokenizer_pads_with_eos env tokenizer model :
  load_chatbot_try env = inr (tokenizer, model) ->
  exists pretrained,
    AutoTokenizer_from_pretrained env "microsoft/DialoGPT-medium"
    = inr pretrained /\
    AutoModelForCausalLM_from_pretrained env "microsoft/DialoGPT-medium"
    = inr model /\
    eos_token tokenizer = eos_token pretrained /\
    encode tokenizer = encode pretrained /\
    decode tokenizer = decode pretrained /\
    (pad_token pretrained = None ->
     pad_token tokenizer = eos_token pretrained /\
     pad_token_id tokenizer = eos_token_id tokenizer) /\
    (pad_token pretrained <> None -> tokenizer = pretrained) /\
    (pad_token tokenizer = None -> eos_token tokenizer = None).
Proof.
  unfold load_chatbot_try, Result.bind, Result.ret.
  destruct (AutoTokenizer_from_pretrained env _) as [e|pretrained];
    [discriminate|].
  destruct (AutoModelForCausalLM_from_pretrained env _) as [e|model'];
    [discriminate|].
  intros [= <- <-]. exists pretrained.
  destruct (pad_token pretrained) as [pad|] eqn:Hpad;
    repeat split; try reflexivity; try congruence.
  cbn. auto.
Qed.

(** X11: [load_chatbot] never raises and never touches the session.  It
    returns a tokenizer together with a model and shows nothing, or it
    returns neither and shows the message of the exception that loading the
    tokenizer raised or, the tokenizer being loaded, that loading the model
    raised. *)
Theorem load_chatbot_both_or_neither env s page :
  (exists tokenizer model,
      load_chatbot env s page
      = (st.Normal (Some tokenizer, Some model), s, page)) \/
  (exists e,
      load_chatbot env s page
      = (st.Normal (None, None), s,
         page ++ [st.ElError ("Error loading model: " ++ str e)%string]) /\
      (AutoTokenizer_from_pretrained env "microsoft/DialoGPT-medium" = inl e \/
       (exists pretrained,
           AutoTokenizer_from_pretrained env "microsoft/DialoGPT-medium"
           = inr pretrained /\
           AutoModelForCausalLM_from_pretrained env "microsoft/DialoGPT-medium"
           = inl e))).
Proof.
  rewrite load_chatbot_spec.
  unfold load_chatbot_try, Result.bind, Result.ret.
  destruct (AutoTokenizer_from_pretrained env _) as [e|pretrained] eqn:Ht.
  { right. exists e. auto. }
  destruct (AutoModelForCausalLM_from_pretrained env _) as [e|model] eqn:Hm.
  { right. exists e. split; [reflexivity|]. right. now exists pretrained. }
  left. eauto.
Qed.

(** X12: slicing undoes the concatenation.  When the model answers with
    its input followed by [reply], the text returned is the decoding of
    [reply] alone, whatever the prior history, and the new history is the
    prior history, the encoded turn and [reply] in this order. *)
Theorem reply_is_the_generated_tokens tokenizer model chat_history user_input
    max_length eos new_ids reply :
  eos_token tokenizer = Some eos ->
  encode tokenizer (user_input ++ eos)%string = inr new_ids ->
  generate model (bot_input_ids chat_history new_ids)
    (generation_kwargs tokenizer max_length)
  = inr (bot_input_ids chat_history new_ids ++ reply) ->
  generate_response tokenizer model chat_history user_input max_length
  = match decode tokenizer reply true with
    | inl e => inr (apology e, None)
    | inr response =>
        inr (response,
             Some (match chat_history with
                   | Some history => history ++ new_ids ++ reply
                   | None => new_ids ++ reply
                   end))
    end.
Proof.
  intros Heos Henc Hgen.
  unfold generate_response, generate_response_try, Result.try_except,
    Result.bind, Result.ret, str_add.
  rewrite Heos. unfold Result.ret. rewrite Henc, Hgen.
  rewrite skipn_app, skipn_all, Nat.sub_diag. cbn [app skipn].
  destruct (decode tokenizer reply true); [reflexivity|].
  unfold bot_input_ids. destruct chat_history; [|reflexivity].
  now rewrite <- app_assoc.
Qed.

(** X13: when the model answers with no more tokens than it was given,
    the slice beyond the input is empty: the text returned is the decoding
    of no token, and the answer, short as it is, becomes the history. *)
Theorem short_output_decodes_nothing tokenizer model chat_history user_input
    max_length eos new_ids out :
  eos_token tokenizer = Some eos ->
  encode tokenizer (user_input ++ eos)%string = inr new_ids ->
  generate model (bot_input_ids chat_history new_ids)
    (generation_kwargs tokenizer max_length) = inr out ->
  (length out <= length (bot_input_ids chat_history new_ids))%nat ->
  generate_response tokenizer model chat_history user_input max_length
  = match decode tokenizer [] true with
    | inl e => inr (apology e, None)
    | inr response => inr (response, Some out)
    end.
Proof.
  intros Heos Henc Hgen Hlen.
  unfold generate_response, generate_response_try, Result.try_except,
    Result.bind, Result.ret, str_add.
  rewrite Heos. unfold Result.ret. rewrite Henc, Hgen.
  rewrite (skipn_all2 out Hlen).
  destruct (decode tokenizer [] true); reflexivity.
Qed.

(** X14: a session goes on after a failed generation, without context.
    The send that follows one whose generation raised asks the model to
    continue the new turn alone, while the turn list keeps every earlier
    turn, the apology included. *)
Theorem send_after_failure_starts_afresh env w s tokenizer model e
    env' w' tokenizer' model' :
  load_chatbot_try env = inr (tokenizer, model) ->
  is_send w = true ->
  truthy (sent_text w s) = true ->
  generate_response_try tokenizer model (token_history s) (sent_text w s)
    (st.slider w) = inl e ->
  load_chatbot_try env' = inr (tokenizer', model') ->
  is_send w' = true ->
  truthy (sent_text w' (state_after env w s)) = true ->
  exists response history,
    generate_response tokenizer' model' None
      (sent_text w' (state_after env w s)) (st.slider w')
    = inr (response, history) /\
    turns (state_after env' w' (state_after env w s))
    = turns s
      ++ [("user", sent_text w s); ("ai", apology e);
          ("user", sent_text w' (state_after env w s)); ("ai", response)] /\
    token_history (state_after env' w' (state_after env w s)) = history.
Proof.
  intros Hload Hsend Htext Hfail Hload' Hsend' Htext'.
  destruct (state_after_send env w s tokenizer model Hload Hsend Htext)
    as (r & h & Hgen & Hturns & Hhist & _).
  rewrite (generate_response_failure _ _ _ _ _ _ Hfail) in Hgen.
  injection Hgen as <- <-.
  destruct (state_after_send env' w' (state_after env w s) tokenizer' model'
              Hload' Hsend' Htext')
    as (r' & h' & Hgen' & Hturns' & Hhist' & _).
  rewrite Hhist in Hgen'. exists r', h'.
  rewrite Hturns', Hturns, <- app_assoc. auto.
Qed.

(** ** The further properties on the sample session *)

Lemma starter_button_does_not_send_witness :
  turns (state_after Toy.env (Toy.pick "Science") Sample.greeted)
  = turns Sample.greeted /\
  token_history (state_after Toy.env (Toy.pick "Science") Sample.greeted)
  = token_history Sample.greeted /\
  exchanges (state_after Toy.env (Toy.pick "Science") Sample.greeted)
  = exchanges Sample.greeted /\
  st.selected_starter (state_after Toy.env (Toy.pick "Science") Sample.greeted)
  = None /\
  page_after Toy.env (Toy.pick "Science") Sample.greeted
  = st.ElMetric "Messages Exchanged"
      (Z.of_nat (length (turns Sample.greeted)))
    :: chat_view (turns Sample.greeted).
Proof.
  apply (starter_button_does_not_send Toy.env (Toy.pick "Science")
           Sample.greeted "Science"
           "Can you explain quantum computing in simple terms?").
  - right. right. left. reflexivity.
  - vm_compute. reflexivity.
  - vm_compute. reflexivity.
  - vm_compute. reflexivity.
Defined.

Lemma empty_text_is_not_sent_witness :
  fst (fst (interact Toy.offline Edge.send_box st.fresh)) = st.Normal tt /\
  turns (state_after Toy.offline Edge.send_box st.fresh) = turns st.fresh /\
  token_history (state_after Toy.offline Edge.send_box st.fresh)
  = token_history st.fresh /\
  exchanges (state_after Toy.offline Edge.send_box st.fresh)
  = exchanges st.fresh /\
  page_after Toy.offline Edge.send_box st.fresh
  = st.ElMetric "Messages Exchanged" (Z.of_nat (length (turns st.fresh)))
    :: chat_view (turns st.fresh).
Proof.
  apply (empty_text_is_not_sent Toy.offline Edge.send_box st.fresh).
  - vm_compute. reflexivity.
  - vm_compute. reflexivity.
  - vm_compute. reflexivity.
Defined.

Lemma idle_run_changes_nothing_witness :
  interact Toy.env Edge.nothing Sample.greeted
  = (st.Normal tt, Sample.greeted,
     st.ElMetric "Messages Exchanged"
       (Z.of_nat (length (turns Sample.greeted)))
     :: chat_view (turns Sample.greeted)).
Proof.
  apply (idle_run_changes_nothing Toy.env Edge.nothing Sample.greeted).
  - exact (state_after_settled Toy.env (Toy.send "hi") st.fresh eq_refl).
  - vm_compute. reflexivity.
  - reflexivity.
Defined.

Lemma turns_are_append_only_witness :
  exists added,
    turns (session_after Sample.two_sends Sample.greeted)
    = turns Sample.greeted ++ added /\
    alternating added /\
    (length added <= 2 * length Sample.two_sends)%nat.
Proof.
  apply (turns_are_append_only Sample.two_sends Sample.greeted).
  vm_compute. reflexivity.
Defined.

Lemma loaded_tokenizer_pads_with_eos_witness :
  exists pretrained,
    AutoTokenizer_from_pretrained Toy.env "microsoft/DialoGPT-medium"
    = inr pretrained /\
    AutoModelForCausalLM_from_pretrained Toy.env "microsoft/DialoGPT-medium"
    = inr Toy.model /\
    eos_token Sample.tokenizer = eos_token pretrained /\
    encode Sample.tokenizer = encode pretrained /\
    decode Sample.tokenizer = decode pretrained /\
    (pad_token pretrained = None ->
     pad_token Sample.tokenizer = eos_token pretrained /\
     pad_token_id Sample.tokenizer = eos_token_id Sample.tokenizer) /\
    (pad_token pretrained <> None -> Sample.tokenizer = pretrained) /\
    (pad_token Sample.tokenizer = None -> eos_token Sample.tokenizer = None).
Proof.
  apply (loaded_tokenizer_pads_with_eos Toy.env Sample.tokenizer Toy.model).
  reflexivity.
Defined.

Lemma reply_is_the_generated_tokens_witness :
  generate_response Sample.tokenizer Toy.model (Some [104; 105; 50256]%Z)
    "yo" 1000
  = match decode Sample.tokenizer [111; 107; 50256]%Z true with
    | inl e => inr (apology e, None)
    | inr response =>
        inr (response,
             Some ([104; 105; 50256]%Z
                   ++ [121; 111; 50256]%Z ++ [111; 107; 50256]%Z))
    end.
Proof.
  apply (reply_is_the_generated_tokens Sample.tokenizer Toy.model
           (Some [104; 105; 50256]%Z) "yo" 1000%Z Toy.eos
           [121; 111; 50256]%Z [111; 107; 50256]%Z).
  - reflexivity.
  - vm_compute. reflexivity.
  - vm_compute. reflexivity.
Defined.

Lemma short_output_decodes_nothing_witness :
  generate_response Sample.tokenizer Edge.terse None "hi" 1000
  = match decode Sample.tokenizer [] true with
    | inl e => inr (apology e, None)
    | inr response => inr (response, Some [104; 105]%Z)
    end.
Proof.
  apply (short_output_decodes_nothing Sample.tokenizer Edge.terse None "hi"
           1000%Z Toy.eos [104; 105; 50256]%Z [104; 105]%Z).
  - reflexivity.
  - vm_compute. reflexivity.
  - vm_compute. reflexivity.
  - vm_compute. lia.
Defined.

Lemma send_after_failure_starts_afresh_witness :
  exists response history,
    generate_response Sample.tokenizer Toy.model None
      (sent_text (Toy.send "yo")
         (state_after Toy.env (Toy.send Sample.long_text) Sample.greeted))
      (st.slider (Toy.send "yo"))
    = inr (response, history) /\
    turns (state_after Toy.env (Toy.send "yo")
             (state_after Toy.env (Toy.send Sample.long_text) Sample.greeted))
    = turns Sample.greeted
      ++ [("user", sent_text (Toy.send Sample.long_text) Sample.greeted);
          ("ai", apology Sample.overflow);
          ("user",
           sent_text (Toy.send "yo")
             (state_after Toy.env (Toy.send Sample.long_text) Sample.greeted));
          ("ai", response)] /\
    token_history
      (state_after Toy.env (Toy.send "yo")
         (state_after Toy.env (Toy.send Sample.long_text) Sample.greeted))
    = history.
Proof.
  apply (send_after_failure_starts_afresh Toy.env (Toy.send Sample.long_text)
           Sample.greeted Sample.tokenizer Toy.model Sample.overflow
           Toy.env (Toy.send "yo") Sample.tokenizer Toy.model).
  - reflexivity.
  - vm_compute. reflexivity.
  - vm_compute. reflexivity.
  - vm_compute. reflexivity.
  - reflexivity.
  - vm_compute. reflexivity.
  - vm_compute. reflexivity.
Defined.

Lemma only_clear_input_raises_witness :
  fst (fst (interact Toy.env Edge.clear_input Sample.greeted))
  = st.Raised (st.widget_key_error "user_input") /\
  turns (state_after Toy.env Edge.clear_input Sample.greeted)
  = turns Sample.greeted /\
  token_history (state_after Toy.env Edge.clear_input Sample.greeted)
  = token_history Sample.greeted /\
  exchanges (state_after Toy.env Edge.clear_input Sample.greeted)
  = exchanges Sample.greeted /\
  st.user_input (state_after Toy.env Edge.clear_input Sample.greeted)
  = Some (box (deliver Edge.clear_input Sample.greeted)) /\
  page_after Toy.env Edge.clear_input Sample.greeted
  = (st.ElMetric "Messages Exchanged"
       (Z.of_nat (length (turns Sample.greeted)))
     :: chat_view (turns Sample.greeted))
    ++ [st.ElException (str (st.widget_key_error "user_input"))].
Proof.
  apply (proj1 (proj2 (only_clear_input_raises Toy.env Edge.clear_input
                         Sample.greeted))).
  - vm_compute. reflexivity.
  - vm_compute. reflexivity.
Defined.

Lemma keys_exist_after_interaction_witness :
  st.selected_starter (state_after Toy.env (Toy.pick "Science") st.fresh)
  = None.
Proof.
  apply (proj2 (keys_exist_after_interaction Toy.env (Toy.pick "Science")
                  st.fresh)).
  left. reflexivity.
Defined.
